(** * The quiz leaderboard module: store, ranker and reporter

    A shallow embedding of [leaderboard_module.py].

    - Numbers.  A Python score or duration is an [int] or a [float].  Both are
      modelled by the exact number they denote ([Int z], [Float q] with [q]
      rational: every finite double is a rational).  Comparison, negation and
      decimal formatting work on that exact value, as in Python; the float
      operations that round ([//], [%], the division of [total_seconds])
      return the nearest double ([round_double]).  [nan] and the infinities
      are not values of [num]; the one place where the code builds
      [float('inf')] itself (the default of the sort key) has its own type
      [xnum].
    - Text.  Strings are byte strings holding the UTF-8 text of the source.
    - Records.  A stored result is a JSON object read through [dict.get], so
      every field may be absent: a record of options.  A field that is there
      has the type of the data model (a string, a number, an integer count).
    - Effects.  The directory tree under the working directory, the clock and
      the storage device form the [world]; a function that does I/O is a
      state transformer that returns a value or raises an exception ([M]).
      The module reads the clock and never sets it; that time passes from
      one call to the next is a step of the environment ([at_time]).
      The working directory itself can be read and written; what may go wrong
      is what the tree holds at the two names the module uses, the permissions
      of the results file, and the device failing during a write.
    - [json.load] and [json.dump] are library code: the bytes of a file are
      classified by what [json.load] makes of them ([content]), and a stored
      array is an array of result objects.
    - Times.  [start_time] and [end_time] are naive datetimes, counted in
      microseconds, or values of another type. *)

From Stdlib Require Import ZArith QArith Qround Qabs Qpower Lqa String Ascii List Lia.
From Stdlib Require Import Sorted Permutation.
From Stdlib Require Import Decimal DecimalString.
From stdpp Require Import gmap strings.

Local Open Scope string_scope.
Local Open Scope Z_scope.

(** ** Python numbers *)

Inductive num : Type :=
| Int (z : Z)
| Float (q : Q).

(** The number a value denotes. *)
Definition num_val (x : num) : Q :=
  match x with
  | Int z => inject_Z z
  | Float q => q
  end.

(** [-x] *)
Definition py_neg (x : num) : num :=
  match x with
  | Int z => Int (- z)
  | Float q => Float (- q)%Q
  end.

(** [x == y] and [x < y]: Python compares an int with a float by value. *)
Definition num_eqb (x y : num) : bool := Qeq_bool (num_val x) (num_val y).

Definition num_ltb (x y : num) : bool :=
  match (num_val x ?= num_val y)%Q with
  | Lt => true
  | _ => false
  end.

(** *** Doubles

    A float is an IEEE 754 double: a rational of the form [m * 2^e] with
    [|m| < 2^53].  A float operation returns the double nearest to the exact
    result, ties going to the even significand. *)

(** The integer nearest to a rational that is not negative, ties to even. *)
Definition round_half_even (q : Q) : Z :=
  let f := Qfloor q in
  match (q - inject_Z f ?= 1 # 2)%Q with
  | Lt => f
  | Gt => f + 1
  | Eq => if Z.even f then f else f + 1
  end.

(** The exponent [b] with [2^b <= |q| < 2^(b+1)], for [q] other than 0. *)
Definition binade (q : Q) : Z :=
  let k := Z.log2 (Z.abs (Qnum q)) - Z.log2 (Z.pos (Qden q)) in
  if Qle_bool (2 ^ k) (Qabs q) then k else k - 1.

(** The double nearest to [q]: 53 bits from the leading one, and no bit below
    [2^-1074] (subnormal numbers).  Results beyond the largest double (an
    overflow in Python) do not arise from the values of this module. *)
Definition round_double (q : Q) : Q :=
  if Qeq_bool q 0 then 0%Q
  else
    let e := Z.max (binade q - 52) (-1074) in
    let m := round_half_even (Qabs q / 2 ^ e) in
    ((if Qle_bool 0 q then 1 else -1) * inject_Z m * 2 ^ e)%Q.

(** [int(x)] for a float, and the truncation in C's [fmod]: toward zero. *)
Definition float_trunc (q : Q) : Z := Z.quot (Qnum q) (Z.pos (Qden q)).

(** C's [fmod(vx, wx)]: the remainder with the sign of [vx], always exact. *)
Definition fmod (vx wx : Q) : Q := (vx - wx * inject_Z (float_trunc (vx / wx)))%Q.

(** Whether the remainder has to change sign: [mod && ((wx < 0) != (mod < 0))]. *)
Definition wrong_sign (md wx : Q) : bool :=
  negb (Qeq_bool md 0)
  && xorb (negb (Qle_bool 0 wx)) (negb (Qle_bool 0 md)).

(** [vx // wx] on floats, as CPython computes it: the quotient of
    [vx - fmod(vx, wx)] by [wx], moved down by one when the remainder changes
    sign, then snapped to an integral value. *)
Definition float_floordiv (vx wx : Q) : Q :=
  let md := fmod vx wx in
  let div := round_double (round_double (vx - md) / wx) in
  let div := if wrong_sign md wx then round_double (div - 1) else div in
  if Qeq_bool div 0 then 0%Q
  else
    let floordiv := inject_Z (Qfloor div) in
    if Qle_bool (round_double (div - floordiv)) (1 # 2) then floordiv
    else round_double (floordiv + 1).

(** [vx % wx] on floats: [fmod], plus [wx] when the sign is the wrong one. *)
Definition float_mod (vx wx : Q) : Q :=
  let md := fmod vx wx in
  if wrong_sign md wx then round_double (md + wx) else md.

(** [x // d] and [x % d] for an int divisor [d]: on ints the floor division
    and the remainder that takes the sign of the divisor; on floats the
    divisor is converted and the operation is that of doubles. *)
Definition py_floordiv (x : num) (d : Z) : num :=
  match x with
  | Int z => Int (z / d)
  | Float q => Float (float_floordiv q (round_double (inject_Z d)))
  end.

Definition py_mod (x : num) (d : Z) : num :=
  match x with
  | Int z => Int (z mod d)
  | Float q => Float (float_mod q (round_double (inject_Z d)))
  end.

(** [int(x)]: a float is truncated toward zero. *)
Definition py_int (x : num) : Z :=
  match x with
  | Int z => z
  | Float q => float_trunc q
  end.

(** [x.is_integer()] *)
Definition is_integer (q : Q) : bool := Qeq_bool (inject_Z (Qfloor q)) q.

(** The line feed, ["\n"] in the source. *)
Definition nl : string := String "010"%char EmptyString.

(** [str(z)] for an int: decimal digits, with a minus sign when negative. *)
Definition str_int (z : Z) : string := NilZero.string_of_int (Z.to_int z).

(** [f"{q:.1f}"]: the value rounded to one decimal, ties to the even digit, on
    the exact value of the float; the sign is printed even when the digits
    round to zero. *)
Definition format_1f (q : Q) : string :=
  let tenths := round_half_even (Qabs q * inject_Z 10) in
  (match (q ?= 0)%Q with Lt => "-" | _ => "" end)
    ++ str_int (tenths / 10) ++ "." ++ str_int (tenths mod 10).

(** ** Reporter: formatting of one value *)

(** [format_time], lines 116-120. *)
Definition format_time (seconds : num) : string :=
  let minutes := py_int (py_floordiv seconds 60) in
  let secs := py_int (py_mod seconds 60) in
  str_int minutes ++ "m " ++ str_int secs ++ "s".

(** The score of one entry as text, lines 162-168 of
    [generate_leaderboard_message]. *)
Definition score_str (score : num) : string :=
  match score with
  | Float q =>
      if is_integer q then str_int (py_int (Float q))
      else format_1f q
  | Int z => str_int z
  end.

(** ** Data model *)

(** One stored result: the JSON object written by [record_quiz_result].  The
    code reads every field with [dict.get], so each may be missing. *)
Module Entry.
Record t : Type := mk {
  quiz_id : option string;
  user_id : option string;
  user_name : option string;
  score : option num;
  correct_answers : option Z;
  total_questions : option Z;
  completion_time : option num;
  timestamp : option string
}.
End Entry.

(** [d.get(key, default)] *)
Definition dict_get {A : Type} (field : option A) (default : A) : A :=
  match field with
  | Some v => v
  | None => default
  end.

(** A quiz or user identifier as the callers pass it: [Union[int, str]]. *)
Inductive pyid : Type :=
| IdInt (z : Z)
| IdStr (s : string).

(** [str(x)] *)
Definition py_str (x : pyid) : string :=
  match x with
  | IdInt z => str_int z
  | IdStr s => s
  end.

(** The truth value of an optional string ([if quiz_title:]) and of an
    optional identifier ([elif quiz_id:]): [None], the empty string and [0]
    are false; what is true is handed on. *)
Definition truthy_str (x : option string) : option string :=
  match x with
  | Some s => if String.eqb s "" then None else Some s
  | None => None
  end.

Definition truthy_id (x : option pyid) : option pyid :=
  match x with
  | Some (IdInt z) => if z =? 0 then None else Some (IdInt z)
  | Some (IdStr s) => if String.eqb s "" then None else Some (IdStr s)
  | None => None
  end.

(** The [start_time] and [end_time] arguments: a (naive) [datetime], counted
    in microseconds, or anything else ([None], a string, ...). *)
Inductive pytime : Type :=
| Datetime (microseconds : Z)
| NotDatetime.

(** [(end_time - start_time).total_seconds()]: the microseconds of the
    difference divided by a million, as a float: the nearest double. *)
Definition total_seconds (end_us start_us : Z) : num :=
  Float (round_double (inject_Z (end_us - start_us) / inject_Z 1000000)).

(** What [json.load] can return.  A JSON array of result objects, or one of
    the other JSON values, told apart by how Python iterates them: an empty
    object or empty string yields nothing, a non-empty one yields strings, a
    number, [true], [false] or [null] cannot be iterated. *)
Inductive document : Type :=
| Records (l : list Entry.t)
| Empty_container
| Nonempty_container
| Scalar.

(** ** The world: files, clock, device *)

(** The bytes of a file, by what [json.load] makes of them. *)
Inductive content : Type :=
| Json (doc : document)   (* text of a JSON value *)
| Not_json                (* text that is no JSON value, the empty text included *)
| Not_utf8.               (* bytes that do not decode *)

(** A file with its permissions, or a directory with its entries by name. *)
#[warnings="-register-all"]
Inductive node : Type :=
| File (readable writable : bool) (c : content)
| Dir (entries : gmap string node).

Record world : Type := mk_world {
  files : gmap string node;   (* the entries of the working directory *)
  clock : string;             (* what [datetime.now().isoformat()] gives now *)
  io_fault : bool             (* the device fails while file data is written *)
}.

Inductive exn : Type :=
| FileExistsError
| FileNotFoundError
| NotADirectoryError
| IsADirectoryError
| PermissionError
| UnicodeDecodeError
| JSONDecodeError
| OSError
| AttributeError
| TypeError.

Inductive res (A : Type) : Type :=
| Ok (a : A)
| Raise (e : exn).
Arguments Ok {A} a.
Arguments Raise {A} e.

(** A computation that may change the world and returns or raises. *)
Definition M (A : Type) : Type := world -> world * res A.

Definition ret {A : Type} (a : A) : M A := fun w => (w, Ok a).

Definition raise {A : Type} (e : exn) : M A := fun w => (w, Raise e).

Definition lift {A : Type} (r : res A) : M A := fun w => (w, r).

Definition bind {A B : Type} (c : M A) (k : A -> M B) : M B :=
  fun w =>
    match c w with
    | (w', Ok a) => k a w'
    | (w', Raise e) => (w', Raise e)
    end.

(** [try: c except caught: handler] *)
Definition try_except {A : Type} (c : M A) (caught : exn -> bool) (handler : M A) : M A :=
  fun w =>
    match c w with
    | (w', Ok a) => (w', Ok a)
    | (w', Raise e) => if caught e then handler w' else (w', Raise e)
    end.

Declare Scope io_scope.
Delimit Scope io_scope with io.
Notation "x <- c ;; k" := (bind c (fun x => k))
  (at level 100, c at next level, right associativity) : io_scope.
Notation "c ;;; k" := (bind c (fun _ => k))
  (at level 100, right associativity) : io_scope.
Local Open Scope io_scope.

(** *** Paths *)

Definition os_path_join (a b : string) : string := a ++ "/" ++ b.

(** [os.path.dirname]: what precedes the last separator. *)
Fixpoint os_path_dirname (path : string) : string :=
  match path with
  | EmptyString => EmptyString
  | String c rest =>
      if existsb (Ascii.eqb "/") (list_ascii_of_string rest)
      then String c (os_path_dirname rest)
      else EmptyString
  end.

(** The names a relative path goes through, one per separator. *)
Fixpoint path_components (path : string) : list string :=
  match path with
  | EmptyString => [EmptyString]
  | String c rest =>
      if Ascii.eqb c "/" then EmptyString :: path_components rest
      else
        match path_components rest with
        | name :: names => String c name :: names
        | [] => [String c EmptyString]
        end
  end.

(** [RESULTS_FILE], line 14. *)
Definition RESULTS_FILE : string := os_path_join "data" "leaderboard_results.json".

(** *** File system calls *)

(** The node at the end of a path, if the path leads anywhere. *)
Fixpoint resolve (entries : gmap string node) (path : list string) : option node :=
  match path with
  | [] => None
  | name :: rest =>
      match rest with
      | [] => entries !! name
      | _ :: _ =>
          match entries !! name with
          | Some (Dir inside) => resolve inside rest
          | _ => None
          end
      end
  end.

(** [os.path.exists(path)] *)
Definition os_path_exists (path : string) : M bool :=
  fun w => (w, Ok (bool_decide (is_Some (resolve (files w) (path_components path))))).

Definition set_files (w : world) (fs : gmap string node) : world :=
  {| files := fs; clock := clock w; io_fault := io_fault w |}.

(** Running a change of the directory tree in the world. *)
Definition change_files (step : gmap string node -> res (gmap string node)) : M unit :=
  fun w =>
    match step (files w) with
    | Ok fs => (set_files w fs, Ok tt)
    | Raise e => (w, Raise e)
    end.

(** [os.makedirs(name, exist_ok=True)]: makes the directories of the path
    that are missing, accepts those that are there, and raises when a name
    on the way is taken by a file. *)
Fixpoint makedirs_in (entries : gmap string node) (path : list string)
    : res (gmap string node) :=
  match path with
  | [] => Ok entries
  | name :: rest =>
      match entries !! name with
      | None =>
          match makedirs_in ∅ rest with
          | Ok inside => Ok (<[name := Dir inside]> entries)
          | Raise e => Raise e
          end
      | Some (Dir inside) =>
          match rest with
          | [] => Ok entries
          | _ :: _ =>
              match makedirs_in inside rest with
              | Ok inside' => Ok (<[name := Dir inside']> entries)
              | Raise e => Raise e
              end
          end
      | Some (File _ _ _) =>
          Raise (match rest with [] => FileExistsError | _ :: _ => NotADirectoryError end)
      end
  end.

Definition os_makedirs (name : string) : M unit :=
  change_files (fun fs => makedirs_in fs (path_components name)).

(** [open(path, 'r', encoding='utf-8')]: hands over the bytes to read. *)
Fixpoint open_r_in (entries : gmap string node) (path : list string) : res content :=
  match path with
  | [] => Raise FileNotFoundError
  | name :: rest =>
      match rest with
      | [] =>
          match entries !! name with
          | None => Raise FileNotFoundError
          | Some (Dir _) => Raise IsADirectoryError
          | Some (File r _ c) => if r then Ok c else Raise PermissionError
          end
      | _ :: _ =>
          match entries !! name with
          | None => Raise FileNotFoundError
          | Some (File _ _ _) => Raise NotADirectoryError
          | Some (Dir inside) => open_r_in inside rest
          end
      end
  end.

Definition open_r (path : string) : M content :=
  fun w => (w, open_r_in (files w) (path_components path)).

(** Replacing the node at the end of a path by what [put] makes of it. *)
Fixpoint put_at (put : option node -> res node) (entries : gmap string node)
    (path : list string) : res (gmap string node) :=
  match path with
  | [] => Raise FileNotFoundError
  | name :: rest =>
      match rest with
      | [] =>
          match put (entries !! name) with
          | Ok n => Ok (<[name := n]> entries)
          | Raise e => Raise e
          end
      | _ :: _ =>
          match entries !! name with
          | None => Raise FileNotFoundError
          | Some (File _ _ _) => Raise NotADirectoryError
          | Some (Dir inside) =>
              match put_at put inside rest with
              | Ok inside' => Ok (<[name := Dir inside']> entries)
              | Raise e => Raise e
              end
          end
      end
  end.

(** What opening for writing makes of a name: a new empty file, the file
    that was there emptied, or an error. *)
Definition truncated (slot : option node) : res node :=
  match slot with
  | None => Ok (File true true Not_json)
  | Some (Dir _) => Raise IsADirectoryError
  | Some (File r wr _) => if wr then Ok (File r wr Not_json) else Raise PermissionError
  end.

(** [open(path, 'w', encoding='utf-8')]: creates the file or empties it, at
    once. *)
Definition open_w (path : string) : M unit :=
  change_files (fun fs => put_at truncated fs (path_components path)).

(** [json.load(f)]: decode, then parse. *)
Definition json_load (c : content) : res document :=
  match c with
  | Json doc => Ok doc
  | Not_json => Raise JSONDecodeError
  | Not_utf8 => Raise UnicodeDecodeError
  end.

(** The open file with new bytes. *)
Definition written (c : content) (slot : option node) : res node :=
  match slot with
  | Some (File r wr _) => Ok (File r wr c)
  | _ => Raise OSError
  end.

(** [json.dump(results, f, indent=2, ensure_ascii=False)] into the file open
    at [path], closed on the way out of the [with] block.  When the device
    fails, what reached the file is the beginning of the text of an array,
    which is no JSON value, and [OSError] is raised. *)
Definition json_dump (results : list Entry.t) (path : string) : M unit :=
  fun w =>
    if io_fault w then
      (fst (change_files (fun fs => put_at (written Not_json) fs (path_components path)) w),
       Raise OSError)
    else
      change_files
        (fun fs => put_at (written (Json (Records results))) fs (path_components path)) w.

(** [datetime.now().isoformat()]: the reading of the clock at the time of
    the call.  Reading does not move the clock; time passes between calls
    ([at_time]). *)
Definition datetime_now_isoformat : M string := fun w => (w, Ok (clock w)).

(** Time passes: the clock comes to show [now].  A step of the environment,
    taken between the calls of a sequence. *)
Definition at_time (now : string) : M unit :=
  fun w => ({| files := files w; clock := now; io_fault := io_fault w |}, Ok tt).

(** ** Store *)

(** [load_results], lines 16-27. *)
Definition load_results : M document :=
  found <- os_path_exists RESULTS_FILE ;;
  if negb found then
    os_makedirs (os_path_dirname RESULTS_FILE) ;;;
    ret (Records [])
  else
    try_except
      (f <- open_r RESULTS_FILE ;; lift (json_load f))
      (fun e => match e with JSONDecodeError | FileNotFoundError => true | _ => false end)
      (ret (Records [])).

(** [save_results], lines 29-35. *)
Definition save_results (results : list Entry.t) : M unit :=
  os_makedirs (os_path_dirname RESULTS_FILE) ;;;
  open_w RESULTS_FILE ;;;
  json_dump results RESULTS_FILE.

(** [results.append(x)]: only a list has the method. *)
Definition list_append (results : document) (x : Entry.t) : M (list Entry.t) :=
  match results with
  | Records l => ret (l ++ [x])%list
  | _ => raise AttributeError
  end.

(** [record_quiz_result], lines 37-87. *)
Definition record_quiz_result (quiz_id user_id : pyid) (user_name : string)
    (score : num) (correct_answers total_questions : Z)
    (start_time end_time : pytime) : M unit :=
  let quiz_id := py_str quiz_id in
  let user_id := py_str user_id in
  let completion_time :=
    match start_time, end_time with
    | Datetime start_us, Datetime end_us => total_seconds end_us start_us
    | _, _ => Int 0
    end in
  results <- load_results ;;
  now <- datetime_now_isoformat ;;
  let new_result :=
    {| Entry.quiz_id := Some quiz_id;
       Entry.user_id := Some user_id;
       Entry.user_name := Some user_name;
       Entry.score := Some score;
       Entry.correct_answers := Some correct_answers;
       Entry.total_questions := Some total_questions;
       Entry.completion_time := Some completion_time;
       Entry.timestamp := Some now |} in
  results <- list_append results new_result ;;
  save_results results.

(** ** Ranker *)

(** The second component of the sort key: a number or [float('inf')]. *)
Inductive xnum : Type :=
| Finite (x : num)
| Infinity.

Definition xnum_eqb (a b : xnum) : bool :=
  match a, b with
  | Finite x, Finite y => num_eqb x y
  | Infinity, Infinity => true
  | _, _ => false
  end.

Definition xnum_ltb (a b : xnum) : bool :=
  match a, b with
  | Finite x, Finite y => num_ltb x y
  | Finite _, Infinity => true
  | Infinity, _ => false
  end.

(** The key of line 110:
    [(-x.get("score", 0), x.get("completion_time", float('inf')))]. *)
Definition sort_key (x : Entry.t) : num * xnum :=
  (py_neg (dict_get (Entry.score x) (Int 0)),
   dict_get (option_map Finite (Entry.completion_time x)) Infinity).

(** [a < b] on the key tuples: the first components that differ decide. *)
Definition tuple_ltb (a b : num * xnum) : bool :=
  if negb (num_eqb (fst a) (fst b)) then num_ltb (fst a) (fst b)
  else if negb (xnum_eqb (snd a) (snd b)) then xnum_ltb (snd a) (snd b)
  else false.

(** [sorted(l, key=key)]: the stable sort, by insertion from the right: an
    element goes in front of the first one that is not smaller than it, so
    before every later element with an equal key. *)
Section Sorted.
Context {A K : Type} (ltb : K -> K -> bool) (key : A -> K).

Fixpoint insert_sorted (x : A) (l : list A) : list A :=
  match l with
  | [] => [x]
  | y :: l' =>
      if ltb (key y) (key x) then y :: insert_sorted x l'
      else x :: y :: l'
  end.

Fixpoint sorted (l : list A) : list A :=
  match l with
  | [] => []
  | x :: l' => insert_sorted x (sorted l')
  end.
End Sorted.

(** [l[:stop]]: a negative [stop] counts from the end. *)
Definition py_slice_to {A : Type} (l : list A) (stop : Z) : list A :=
  if stop <? 0 then firstn (length l - Z.to_nat (- stop)) l
  else firstn (Z.to_nat stop) l.

(** Iterating what [load_results] returned, reading each element with
    [.get]. *)
Definition iterate (results : document) : M (list Entry.t) :=
  match results with
  | Records l => ret l
  | Empty_container => ret []
  | Nonempty_container => raise AttributeError
  | Scalar => raise TypeError
  end.

(** [r.get("quiz_id") == quiz_id] *)
Definition quiz_id_is (quiz_id : string) (r : Entry.t) : bool :=
  match Entry.quiz_id r with
  | Some s => String.eqb s quiz_id
  | None => false
  end.

(** [get_leaderboard], lines 89-114. *)
Definition get_leaderboard (quiz_id : option pyid) (limit : Z) : M (list Entry.t) :=
  results <- load_results ;;
  results <-
    match quiz_id with
    | Some quiz_id =>
        let quiz_id := py_str quiz_id in
        rs <- iterate results ;;
        ret (Records (List.filter (quiz_id_is quiz_id) rs))
    | None => ret results
    end ;;
  rs <- iterate results ;;
  let sorted_results := sorted tuple_ltb sort_key rs in
  ret (py_slice_to sorted_results limit).

(** The default of [limit]. *)
Definition default_limit : Z := 15.

(** ** Reporter *)

(** One pass of the loop of lines 155-184: the text appended for [entry] at
    rank [i]; [total_questions] is the variable set before the loop. *)
Definition entry_text (total_questions : Z) (i : Z) (entry : Entry.t) : string :=
  let user_name := dict_get (Entry.user_name entry) "Unknown" in
  let score := dict_get (Entry.score entry) (Int 0) in
  let correct_answers := dict_get (Entry.correct_answers entry) 0 in
  let completion_time := dict_get (Entry.completion_time entry) (Int 0) in
  let score_str := score_str score in
  let medal :=
    if i =? 1 then "ðŸ¥‡ "
    else if i =? 2 then "ðŸ¥ˆ "
    else if i =? 3 then "ðŸ¥‰ "
    else "" in
  medal ++ "*" ++ str_int i ++ ". " ++ user_name ++ "*" ++ nl
    ++ "   Score: " ++ score_str ++ "  (" ++ str_int correct_answers ++ "/"
    ++ str_int total_questions ++ " correct)" ++ nl
    ++ "   Time: " ++ format_time completion_time ++ nl ++ nl.

(** The loop of lines 155-184, from rank [i] on:
    [for i, entry in enumerate(leaderboard, 1): message += ...]. *)
Fixpoint add_ranking (total_questions : Z) (message : string) (i : Z)
    (leaderboard : list Entry.t) : string :=
  match leaderboard with
  | [] => message
  | entry :: rest =>
      add_ranking total_questions (message ++ entry_text total_questions i entry) (i + 1) rest
  end.

(** The title, lines 139-145. *)
Definition title_of (quiz_id : option pyid) (quiz_title : option string) : string :=
  match truthy_str quiz_title with
  | Some quiz_title => quiz_title
  | None =>
      match truthy_id quiz_id with
      | Some quiz_id => "Quiz " ++ py_str quiz_id
      | None => "All Quizzes"
      end
  end.

(** [generate_leaderboard_message], lines 122-189. *)
Definition generate_leaderboard_message (quiz_id : option pyid)
    (quiz_title : option string) : M string :=
  leaderboard <- get_leaderboard quiz_id default_limit ;;
  match leaderboard with
  | [] => ret ("ðŸ“Š *Leaderboard*" ++ nl ++ nl ++ "No quiz results recorded yet!")
  | sample_entry :: _ =>
      let title := title_of quiz_id quiz_title in
      let message := "ðŸ“Š *Leaderboard: " ++ title ++ "* ðŸ“Š" ++ nl ++ nl in
      let total_questions := dict_get (Entry.total_questions sample_entry) 0 in
      let message := add_ranking total_questions message 1 leaderboard in
      let message := message ++ "Use /play to start a new quiz!" in
      ret message
  end.

(** ** Vocabulary of the properties *)

(** The score of a record as the ranking reads it (0 when missing), and its
    completion time ([None]: no time recorded, infinitely slow). *)
Definition score_of (r : Entry.t) : Q := num_val (dict_get (Entry.score r) (Int 0)).

Definition time_of (r : Entry.t) : option Q := option_map num_val (Entry.completion_time r).

(** [a] is not slower than [b]. *)
Definition time_le (a b : Entry.t) : Prop :=
  match time_of a, time_of b with
  | _, None => True
  | None, Some _ => False
  | Some x, Some y => (x <= y)%Q
  end.

(** [a] may stand right before [b] in a ranking. *)
Definition ranked_before (a b : Entry.t) : Prop :=
  (score_of b < score_of a)%Q \/ ((score_of a == score_of b)%Q /\ time_le a b).

(** [a] and [b] are tied on both keys. *)
Definition tied (a b : Entry.t) : bool :=
  Qeq_bool (score_of a) (score_of b)
  && match time_of a, time_of b with
     | Some x, Some y => Qeq_bool x y
     | None, None => true
     | _, _ => false
     end.

(** The results file is there, with these permissions and bytes. *)
Definition holds (w : world) (readable writable : bool) (c : content) : Prop :=
  resolve (files w) (path_components RESULTS_FILE) = Some (File readable writable c).

(** No decimal point in a text. *)
Definition no_point (s : string) : Prop := ~ In "."%char (list_ascii_of_string s).

(** The stored records a query is about: those of the quiz, or all. *)
Definition matching (quiz_id : option pyid) (results : list Entry.t) : list Entry.t :=
  match quiz_id with
  | Some x => List.filter (quiz_id_is (py_str x)) results
  | None => results
  end.

(** [x] may stand before [y] in a sorted list: [y] is not smaller. *)
Definition key_le {A K : Type} (ltb : K -> K -> bool) (key : A -> K) (x y : A) : Prop :=
  ltb (key y) (key x) = false.

(** The order that the key tuples denote. *)
Definition xnum_le (a b : xnum) : Prop :=
  match a, b with
  | Finite x, Finite y => (num_val x <= num_val y)%Q
  | _, Infinity => True
  | Infinity, Finite _ => False
  end.

Definition tuple_le (a b : num * xnum) : Prop :=
  (num_val (fst a) < num_val (fst b))%Q
  \/ ((num_val (fst a) == num_val (fst b))%Q /\ xnum_le (snd a) (snd b)).

(** A double, the bound on its exponent apart: [m * 2^e] with a significand
    [m] of at most 53 bits ([2^53] itself is [2^52] at the next exponent) and
    no bit below [2^-1074]. *)
Definition double (q : Q) : Prop :=
  exists m e : Z, Z.abs m <= 2 ^ 53 /\ -1074 <= e /\ (q == inject_Z m * 2 ^ e)%Q.

(** The sign of a number as an integer, 0 counted as positive. *)
Definition Zsign (q : Q) : Z := if Qle_bool 0 q then 1 else -1.

(** The lines of the report for the entry at position [k] of a view (rank
    [k + 1]) with [denominator] printed after the slash: the entry's own
    name, score, number of correct answers and time, a missing field read as
    ["Unknown"] or [0]. *)
Definition line_of (denominator : Z) (k : nat) (entry : Entry.t) : string :=
  match k with
  | 0%nat => "ðŸ¥‡ "
  | 1%nat => "ðŸ¥ˆ "
  | 2%nat => "ðŸ¥‰ "
  | _ => ""
  end
    ++ "*" ++ str_int (Z.of_nat k + 1) ++ ". "
    ++ default "Unknown" (Entry.user_name entry) ++ "*" ++ nl
    ++ "   Score: " ++ score_str (default (Int 0) (Entry.score entry))
    ++ "  (" ++ str_int (default 0 (Entry.correct_answers entry))
    ++ "/" ++ str_int denominator ++ " correct)" ++ nl
    ++ "   Time: " ++ format_time (default (Int 0) (Entry.completion_time entry))
    ++ nl ++ nl.

(** The report on a view under a title: header, one [line_of] per entry with
    one and the same denominator, footer. *)
Definition report_with (title : string) (denominator : Z) (view : list Entry.t) : string :=
  "ðŸ“Š *Leaderboard: " ++ title ++ "* ðŸ“Š" ++ nl ++ nl
    ++ String.concat "" (imap (line_of denominator) view)
    ++ "Use /play to start a new quiz!".

(** ** Sample data

    The scenario of the specification (three attempts at quiz Q1) and one
    attempt at another quiz, with another number of questions and no time. *)
Definition result_of (quiz user : string) (score : num) (correct total : Z)
    (seconds : option num) : Entry.t :=
  {| Entry.quiz_id := Some quiz;
     Entry.user_id := Some user;
     Entry.user_name := Some user;
     Entry.score := Some score;
     Entry.correct_answers := Some correct;
     Entry.total_questions := Some total;
     Entry.completion_time := seconds;
     Entry.timestamp := Some "2024-01-01T00:00:00" |}.

Definition sample_A : Entry.t := result_of "Q1" "A" (Int 8) 8 10 (Some (Float 50)).
Definition sample_B : Entry.t := result_of "Q1" "B" (Int 8) 8 10 (Some (Float 40)).
Definition sample_C : Entry.t := result_of "Q1" "C" (Int 9) 9 10 (Some (Float 60)).
Definition sample_D : Entry.t := result_of "Q2" "D" (Float (17 # 2)) 17 20 None.

Definition sample_results : list Entry.t := [sample_A; sample_B; sample_C; sample_D].

Definition world_of (readable : bool) (c : content) (fault : bool) : world :=
  {| files := {[ "data" := Dir {[ "leaderboard_results.json" := File readable true c ]} ]};
     clock := "2024-01-01T00:00:00";
     io_fault := fault |}.

Definition sample_world : world := world_of true (Json (Records sample_results)) false.

(** The store lets a submission through: the device works and the results
    file, if there, may be written. *)
Definition can_write (w : world) : Prop :=
  io_fault w = false /\ forall (r : bool) (c : content), ~ holds w r false c.

(** Worlds for the examples: an unreadable results file, the name [data]
    taken by a file, nothing at all, and a device that fails. *)
Definition unreadable_world : world := world_of false (Json (Records sample_results)) false.

Definition occupied_world : world :=
  {| files := {[ "data" := File true true Not_json ]};
     clock := "2024-01-01T00:00:00";
     io_fault := false |}.

Definition empty_world : world :=
  {| files := ∅; clock := "2024-01-01T00:00:00"; io_fault := false |}.

Definition faulty_world : world := world_of true (Json (Records sample_results)) true.

Definition sample_submission : M unit :=
  record_quiz_result (IdStr "Q1") (IdInt 7) "E" (Int 5) 5 10
    (Datetime 0) (Datetime 30000000).

Definition backwards_submission : M unit :=
  record_quiz_result (IdStr "Q1") (IdInt 7) "E" (Int 5) 5 10
    (Datetime 50000000) (Datetime 0).

(** ** Command handler *)

(** The text of one argument of the command, by what [int()] makes of it: the
    integer it spells, or no integer ([ValueError]). *)
Inductive arg_text : Type :=
| Int_text (z : Z)
| Other_text.

(** [int(s)] with its [ValueError] as [None]. *)
Definition int_of_text (s : arg_text) : option Z :=
  match s with
  | Int_text z => Some z
  | Other_text => None
  end.

(** One call of [update.message.reply_text]. *)
Record reply : Type := mk_reply {
  reply_body : string;
  reply_parse_mode : option string
}.

(** [show_leaderboard_command], lines 192-214.  [command_args] is
    [context.args], a list ([None] behaves as the empty list); [sent] is what
    the chat has received so far, and sending a reply does not fail. *)
Definition show_leaderboard_command (command_args : list arg_text) (w : world)
    (sent : list reply) : world * list reply * res unit :=
  let parsed :=
    match command_args with
    | [] => Some None
    | first :: _ =>
        match int_of_text first with
        | Some z => Some (Some (IdInt z))
        | None => None
        end
    end in
  match parsed with
  | None =>
      (w,
       (sent ++ [mk_reply "Invalid quiz ID. Please provide a valid number." None])%list,
       Ok tt)
  | Some quiz_id =>
      match generate_leaderboard_message quiz_id None w with
      | (w', Ok leaderboard_message) =>
          (w', (sent ++ [mk_reply leaderboard_message (Some "Markdown")])%list, Ok tt)
      | (w', Raise e) => (w', sent, Raise e)
      end
  end.

(** ** Vocabulary of the further properties *)

(** The arguments of one call of [record_quiz_result]. *)
Record submission : Type := mk_submission {
  sub_quiz_id : pyid;
  sub_user_id : pyid;
  sub_user_name : string;
  sub_score : num;
  sub_correct_answers : Z;
  sub_total_questions : Z;
  sub_start_time : pytime;
  sub_end_time : pytime
}.

Definition record (s : submission) : M unit :=
  record_quiz_result (sub_quiz_id s) (sub_user_id s) (sub_user_name s) (sub_score s)
    (sub_correct_answers s) (sub_total_questions s) (sub_start_time s) (sub_end_time s).

(** The calls for several submissions, one after the other, each made when
    the clock shows the time paired with it. *)
Fixpoint record_all (l : list (string * submission)) : M unit :=
  match l with
  | [] => ret tt
  | (now, s) :: rest => at_time now ;;; record s ;;; record_all rest
  end.

(** The entry that a submission adds when the clock shows [now]: the
    dictionary of lines 72-81. *)
Definition stored_entry (s : submission) (now : string) : Entry.t :=
  {| Entry.quiz_id := Some (py_str (sub_quiz_id s));
     Entry.user_id := Some (py_str (sub_user_id s));
     Entry.user_name := Some (sub_user_name s);
     Entry.score := Some (sub_score s);
     Entry.correct_answers := Some (sub_correct_answers s);
     Entry.total_questions := Some (sub_total_questions s);
     Entry.completion_time :=
       Some match sub_start_time s, sub_end_time s with
            | Datetime start_us, Datetime end_us => total_seconds end_us start_us
            | _, _ => Int 0
            end;
     Entry.timestamp := Some now |}.

(** A store that can be written and read back: the device works, the name
    [data] is free or a directory, and the results file is absent or may be
    read and written. *)
Definition usable_store (w : world) : Prop :=
  io_fault w = false
  /\ (files w !! "data" = None
      \/ exists inside : gmap string node,
           files w !! "data" = Some (Dir inside)
           /\ (inside !! "leaderboard_results.json" = None
               \/ exists c : content,
                    inside !! "leaderboard_results.json" = Some (File true true c))).

(** The message for an empty view, line 137. *)
Definition no_results_message : string :=
  "ðŸ“Š *Leaderboard*" ++ nl ++ nl ++ "No quiz results recorded yet!".

(** Two submissions for the examples. *)
Definition submission_E : submission :=
  mk_submission (IdStr "Q1") (IdInt 7) "E" (Int 5) 5 10 (Datetime 0) (Datetime 30000000).

Definition submission_F : submission :=
  mk_submission (IdInt 2) (IdInt 8) "F" (Float (19 # 2)) 10 10 NotDatetime (Datetime 5).

(** A store with a record of quiz 0. *)
Definition zero_world : world :=
  world_of true (Json (Records [result_of "0" "G" (Int 3) 3 5 None; sample_A])) false.

(** * Properties *)

(** ** Numbers and their text *)

Lemma float_trunc_inject_Z (z : Z) : float_trunc (inject_Z z) = z.
Proof. unfold float_trunc; simpl. apply Z.quot_1_r. Qed.


Lemma Qfloor_bounds (q : Q) : (inject_Z (Qfloor q) <= q < inject_Z (Qfloor q) + 1)%Q.
Proof.
  split; [apply Qfloor_le|].
  pose proof (Qlt_floor q) as H. now rewrite inject_Z_plus in H.
Qed.

Lemma Qfloor_nonneg (q : Q) : (0 <= q)%Q -> 0 <= Qfloor q.
Proof.
  intros H. change 0 with (Qfloor (inject_Z 0)) at 1.
  rewrite Qfloor_Z. change 0 with (Qfloor 0%Q). now apply Qfloor_resp_le.
Qed.

Lemma no_point_uint (d : Decimal.uint) :
  no_point (NilEmpty.string_of_uint d).
Proof.
  unfold no_point. induction d; simpl; [tauto | ..];
    (intros [H | H]; [discriminate H | exact (IHd H)]).
Qed.

Lemma no_point_str_int (z : Z) : no_point (str_int z).
Proof.
  unfold str_int, NilZero.string_of_int.
  assert (Hu : forall d, no_point (NilZero.string_of_uint d)).
  { intros d. pose proof (no_point_uint d) as H.
    destruct d; try exact H. unfold no_point; simpl. intros [E | []]. discriminate E. }
  destruct (Z.to_int z) as [d | d]; [apply Hu|].
  unfold no_point; simpl. intros [E | H]; [discriminate E | exact (Hu d H)].
Qed.

Lemma str_int_digit (d : Z) : 0 <= d <= 9 -> String.length (str_int d) = 1%nat.
Proof.
  intros H.
  assert (E : d = 0 \/ d = 1 \/ d = 2 \/ d = 3 \/ d = 4 \/ d = 5 \/ d = 6 \/ d = 7
              \/ d = 8 \/ d = 9) by lia.
  repeat (destruct E as [-> | E]; [reflexivity|]). now subst.
Qed.

Lemma round_half_even_near (r : Q) :
  (0 <= r)%Q ->
  0 <= round_half_even r /\ (Qabs (r - inject_Z (round_half_even r)) <= 1 # 2)%Q.
Proof.
  intros Hr. unfold round_half_even.
  pose proof (Qfloor_nonneg r Hr) as Hf.
  destruct (Qfloor_bounds r) as [H1 H2].
  set (f := Qfloor r) in *.
  destruct (Qcompare_spec (r - inject_Z f) (1 # 2)) as [E | E | E].
  - assert (Hd : (Qabs (r - inject_Z f) <= 1 # 2)%Q)
      by (apply Qabs_case; intros; lra).
    assert (Hu : (Qabs (r - inject_Z (f + 1)) <= 1 # 2)%Q)
      by (rewrite inject_Z_plus; change (inject_Z 1) with 1%Q; apply Qabs_case; intros; lra).
    destruct (Z.even f); (split; [lia | assumption]).
  - split; [lia|]. apply Qabs_case; intros; lra.
  - split; [lia|]. rewrite inject_Z_plus; change (inject_Z 1) with 1%Q.
    apply Qabs_case; intros; lra.
Qed.

Lemma float_trunc_integral (q : Q) (z : Z) : (q == inject_Z z)%Q -> float_trunc q = z.
Proof.
  destruct q as [n d]; unfold Qeq, float_trunc; simpl; intros H.
  rewrite Z.mul_1_r in H. subst n. apply Z.quot_mul. lia.
Qed.

Lemma is_integer_spec (q : Q) : is_integer q = true <-> exists z, (q == inject_Z z)%Q.
Proof.
  unfold is_integer. rewrite Qeq_bool_iff. split.
  - intros H. exists (Qfloor q). now symmetry.
  - intros [z Hz]. rewrite Hz at 1. now rewrite Qfloor_Z.
Qed.

(** ** Doubles *)

Lemma two_nonzero : ~ (2 == 0)%Q.
Proof. discriminate. Qed.

Lemma pow2_pos (e : Z) : (0 < 2 ^ e)%Q.
Proof. apply Qpower_0_lt. reflexivity. Qed.

Lemma pow2_plus (a b : Z) : (2 ^ (a + b) == 2 ^ a * 2 ^ b)%Q.
Proof. apply Qpower_plus, two_nonzero. Qed.

Lemma pow2_le (a b : Z) : a <= b -> (2 ^ a <= 2 ^ b)%Q.
Proof. intros H. apply Qpower_le_compat_l; [exact H | discriminate]. Qed.

Lemma pow2_lt_inv (a b : Z) : (2 ^ a < 2 ^ b)%Q -> a < b.
Proof. intros H. apply (Qpower_lt_compat_l_inv 2); [exact H | reflexivity]. Qed.

Lemma pow2_inject (n : Z) : 0 <= n -> (inject_Z (2 ^ n) == 2 ^ n)%Q.
Proof. intros H. now rewrite Zpower_Qpower. Qed.

Lemma Qabs_num_den (q : Q) :
  (Qabs q == inject_Z (Z.abs (Qnum q)) / inject_Z (Z.pos (Qden q)))%Q.
Proof.
  destruct q as [n d]. unfold Qabs, Qeq, Qdiv, Qmult, Qinv, inject_Z; simpl. lia.
Qed.

(** The binade of a number other than 0 holds it. *)
Lemma binade_spec (q : Q) :
  ~ (q == 0)%Q -> (2 ^ binade q <= Qabs q < 2 ^ (binade q + 1))%Q.
Proof.
  intros Hq. unfold binade.
  set (n := Z.abs (Qnum q)). set (d := Z.pos (Qden q)).
  assert (Hn : 0 < n).
  { unfold n. destruct q as [[|p|p] dd]; simpl; try lia. destruct Hq. reflexivity. }
  assert (Hd : 0 < d) by (unfold d; lia).
  destruct (Z.log2_spec n Hn) as [Hn1 Hn2]. destruct (Z.log2_spec d Hd) as [Hd1 Hd2].
  pose proof (Z.log2_nonneg n) as Hln. pose proof (Z.log2_nonneg d) as Hld.
  set (ln := Z.log2 n) in *. set (ld := Z.log2 d) in *.
  replace (Z.succ ln) with (ln + 1) in Hn2 by lia.
  replace (Z.succ ld) with (ld + 1) in Hd2 by lia.
  assert (Habs : (Qabs q == inject_Z n / inject_Z d)%Q) by apply Qabs_num_den.
  assert (Hdq : (0 < inject_Z d)%Q)
    by (change 0%Q with (inject_Z 0); rewrite <- Zlt_Qlt; exact Hd).
  assert (Hlow : (2 ^ (ln - ld - 1) <= Qabs q)%Q).
  { rewrite Habs. apply Qle_shift_div_l; [exact Hdq|].
    apply Qle_trans with (2 ^ (ln - ld - 1) * 2 ^ (ld + 1))%Q.
    - apply Qmult_le_l; [apply pow2_pos|].
      rewrite <- pow2_inject by lia. rewrite <- Zle_Qle. lia.
    - rewrite <- pow2_plus. replace (ln - ld - 1 + (ld + 1)) with ln by lia.
      rewrite <- pow2_inject by lia. now rewrite <- Zle_Qle. }
  assert (Hhigh : (Qabs q < 2 ^ (ln - ld + 1))%Q).
  { rewrite Habs. apply Qlt_shift_div_r; [exact Hdq|].
    apply Qlt_le_trans with (2 ^ (ln + 1))%Q.
    - rewrite <- pow2_inject by lia. rewrite <- Zlt_Qlt. lia.
    - replace (ln + 1) with (ln - ld + 1 + ld) by lia. rewrite pow2_plus.
      apply Qmult_le_l; [apply pow2_pos|].
      rewrite <- pow2_inject by lia. now rewrite <- Zle_Qle. }
  destruct (Qle_bool (2 ^ (ln - ld)) (Qabs q)) eqn:E.
  - apply Qle_bool_iff in E. split; assumption.
  - replace (ln - ld - 1 + 1) with (ln - ld) by lia. split; [exact Hlow|].
    apply Qnot_le_lt. intros H. apply Qle_bool_iff in H. congruence.
Qed.

Lemma round_half_even_Z (x : Q) (z : Z) : (x == inject_Z z)%Q -> round_half_even x = z.
Proof.
  intros H. unfold round_half_even.
  assert (Hf : Qfloor x = z) by (rewrite H; apply Qfloor_Z).
  rewrite Hf.
  assert (Hc : (x - inject_Z z ?= 1 # 2)%Q = Lt).
  { rewrite <- Qlt_alt, H. lra. }
  now rewrite Hc.
Qed.

Lemma pow2_opp (e : Z) : (2 ^ e * 2 ^ (- e) == 1)%Q.
Proof. rewrite <- pow2_plus. now replace (e + - e) with 0 by lia. Qed.

(** The two factors of [round_double] on a number other than 0. *)
Lemma round_double_unfold (q : Q) :
  ~ (q == 0)%Q ->
  let e := Z.max (binade q - 52) (-1074) in
  (round_double q
   == (if Qle_bool 0 q then 1 else -1)
      * inject_Z (round_half_even (Qabs q / 2 ^ e)) * 2 ^ e)%Q.
Proof.
  intros Hq e. unfold round_double.
  destruct (Qeq_bool q 0) eqn:E; [apply Qeq_bool_iff in E; contradiction | reflexivity].
Qed.

Lemma sign_abs (q : Q) : (q == (if Qle_bool 0 q then 1 else -1) * Qabs q)%Q.
Proof.
  destruct (Qle_bool 0 q) eqn:E.
  - apply Qle_bool_iff in E. rewrite Qabs_pos by exact E. lra.
  - assert (H : (q <= 0)%Q).
    { apply Qlt_le_weak, Qnot_le_lt. intros H. apply Qle_bool_iff in H. congruence. }
    rewrite Qabs_neg by exact H. lra.
Qed.

(** A whole number below 2^53 is a double: rounding leaves it. *)
Lemma round_double_integer (q : Q) (n : Z) :
  (q == inject_Z n)%Q -> Z.abs n < 2 ^ 53 -> (round_double q == inject_Z n)%Q.
Proof.
  intros Hq Hn. destruct (Qeq_dec q 0) as [H0 | H0].
  - unfold round_double. apply Qeq_bool_iff in H0 as E. rewrite E. now rewrite <- Hq.
  - rewrite (round_double_unfold q H0). cbv zeta.
    set (e := Z.max (binade q - 52) (-1074)).
    assert (Habs : (Qabs q == inject_Z (Z.abs n))%Q).
    { rewrite Hq. unfold Qabs, inject_Z; simpl. reflexivity. }
    assert (He : e <= 0).
    { destruct (binade_spec q H0) as [Hb _].
      assert (binade q < 53); [|unfold e; lia].
      apply pow2_lt_inv. apply Qle_lt_trans with (Qabs q); [exact Hb|].
      rewrite Habs, <- pow2_inject by lia. now rewrite <- Zlt_Qlt. }
    assert (Hs : (Qabs q / 2 ^ e == inject_Z (Z.abs n * 2 ^ (- e)))%Q).
    { rewrite Habs, inject_Z_mult, pow2_inject by lia.
      unfold Qdiv. now rewrite <- Qpower_opp. }
    rewrite (round_half_even_Z _ _ Hs), inject_Z_mult, pow2_inject by lia.
    rewrite (sign_abs q) in Hq. rewrite Habs in Hq. rewrite <- Hq.
    rewrite <- !Qmult_assoc. rewrite (Qmult_comm (2 ^ (- e))), pow2_opp. 
    now rewrite Qmult_1_r.
Qed.

(** Above the subnormal range, rounding moves a number by at most half a unit
    in the last of its 53 bits. *)
Lemma round_double_near (q : Q) :
  (2 ^ (-1022) <= Qabs q)%Q ->
  (Qabs (round_double q - q) <= Qabs q * 2 ^ (-53))%Q.
Proof.
  intros Hq.
  assert (H0 : ~ (q == 0)%Q).
  { intros H. rewrite H in Hq. generalize (pow2_pos (-1022)).
    change (Qabs 0) with 0%Q in Hq. revert Hq. generalize (2 ^ (-1022))%Q. intros; lra. }
  destruct (binade_spec q H0) as [Hb1 Hb2].
  assert (Hb : -1022 <= binade q).
  { assert (-1022 < binade q + 1); [|lia].
    apply pow2_lt_inv. eapply Qle_lt_trans; eassumption. }
  rewrite (round_double_unfold q H0). cbv zeta.
  rewrite Z.max_l by lia.
  set (e := binade q - 52).
  set (s := (Qabs q / 2 ^ e)%Q).
  assert (HP : (0 < 2 ^ e)%Q) by apply pow2_pos.
  assert (Hs0 : (0 <= s)%Q).
  { unfold s. apply Qle_shift_div_l; [exact HP|]. rewrite Qmult_0_l. apply Qabs_nonneg. }
  destruct (round_half_even_near s Hs0) as [_ Hm].
  assert (Hqs : (Qabs q == s * 2 ^ e)%Q).
  { unfold s. field. lra. }
  assert (Hpow : (2 ^ binade q == 2 ^ e * 2 ^ 52)%Q).
  { rewrite <- pow2_plus. now replace (e + 52) with (binade q) by (unfold e; lia). }
  set (m := inject_Z (round_half_even s)) in *.
  pose proof (sign_abs q) as Hsa.
  set (sg := if Qle_bool 0 q then 1%Q else (-1)%Q) in *.
  assert (Heq : (sg * m * 2 ^ e - q == sg * ((m - s) * 2 ^ e))%Q).
  { transitivity (sg * m * 2 ^ e - sg * Qabs q)%Q.
    - apply Qplus_comp; [reflexivity|]. apply Qopp_comp. exact Hsa.
    - rewrite Hqs. ring. }
  rewrite Heq, Qabs_Qmult, Qabs_Qmult.
  assert (Hsig : (Qabs sg == 1)%Q) by (unfold sg; destruct (Qle_bool 0 q); reflexivity).
  rewrite Hsig, Qmult_1_l, (Qabs_pos (2 ^ e)) by lra.
  assert (H53 : (2 ^ 52 * 2 ^ (-53) == 1 # 2)%Q) by reflexivity.
  assert (Hm' : (Qabs (m - s) <= 1 # 2)%Q).
  { rewrite Qabs_Qminus. exact Hm. }
  apply Qle_trans with ((1 # 2) * 2 ^ e)%Q.
  - apply Qmult_le_compat_r; lra.
  - apply Qle_trans with (2 ^ binade q * 2 ^ (-53))%Q.
    + rewrite Hpow. rewrite <- Qmult_assoc, H53.
      revert HP. generalize (2 ^ e)%Q. intros; lra.
    + apply Qmult_le_compat_r; [exact Hb1|]. apply Qlt_le_weak, pow2_pos.
Qed.

Lemma pow2_53 : (2 ^ (-53) == 1 # 9007199254740992)%Q.
Proof. reflexivity. Qed.

(** In the normal range rounding keeps the sign. *)
Lemma round_double_sign (q : Q) :
  (2 ^ (-1022) <= Qabs q)%Q -> ((0 <= round_double q)%Q <-> (0 <= q)%Q).
Proof.
  intros Hq. pose proof (round_double_near q Hq) as H.
  pose proof (pow2_pos (-1022)) as Hp. rewrite pow2_53 in H.
  revert Hq Hp H. generalize (2 ^ (-1022))%Q (round_double q). intros p r.
  apply Qabs_case; intros Hs; apply Qabs_case; intros; split; intros; lra.
Qed.


Lemma round_double_0 (q : Q) : (q == 0)%Q -> round_double q = 0%Q.
Proof. intros H. unfold round_double. apply Qeq_bool_iff in H. now rewrite H. Qed.

(** No whole number is nearer than the one [round_half_even] picks. *)
Lemma round_half_even_nearest (s : Q) (j : Z) :
  (0 <= s)%Q ->
  (Qabs (s - inject_Z (round_half_even s)) <= Qabs (s - inject_Z j))%Q.
Proof.
  intros Hs. destruct (round_half_even_near s Hs) as [_ Hm].
  set (m := round_half_even s) in *.
  destruct (Z.eq_dec j m) as [-> | Hne]; [apply Qle_refl|].
  apply Qle_trans with (1 # 2)%Q; [exact Hm|].
  assert (Hj : (inject_Z j + 1 <= inject_Z m \/ inject_Z m + 1 <= inject_Z j)%Q).
  { change 1%Q with (inject_Z 1). rewrite <- !inject_Z_plus, <- !Zle_Qle. lia. }
  revert Hm Hj. generalize (inject_Z j) (inject_Z m). intros a b.
  apply Qabs_case; intros; apply Qabs_case; intros; lra.
Qed.

Lemma Zsign_inject (q : Q) : ((if Qle_bool 0 q then 1 else -1) == inject_Z (Zsign q))%Q.
Proof. unfold Zsign. destruct (Qle_bool 0 q); reflexivity. Qed.

Section Grid.
Variable q : Q.
Hypothesis Hq : ~ (q == 0)%Q.

Let e : Z := Z.max (binade q - 52) (-1074).
Let s : Q := (Qabs q / 2 ^ e)%Q.
Let sg : Q := inject_Z (Zsign q).

Lemma grid_scaled : (Qabs q == s * 2 ^ e)%Q.
Proof. unfold s. field. pose proof (pow2_pos e). lra. Qed.

Lemma grid_scaled_nonneg : (0 <= s)%Q.
Proof.
  unfold s. apply Qle_shift_div_l; [apply pow2_pos|]. rewrite Qmult_0_l. apply Qabs_nonneg.
Qed.

Lemma grid_sign : (sg * sg == 1)%Q /\ (Qabs sg == 1)%Q /\ (q == sg * Qabs q)%Q.
Proof.
  unfold sg. pose proof (sign_abs q) as H. rewrite Zsign_inject in H.
  unfold Zsign in *. destruct (Qle_bool 0 q); repeat split; try reflexivity; exact H.
Qed.

Lemma grid_round : (round_double q == sg * inject_Z (round_half_even s) * 2 ^ e)%Q.
Proof.
  rewrite (round_double_unfold q Hq). cbv zeta. fold e. fold s.
  now rewrite Zsign_inject.
Qed.

(** The distance from [q] to a multiple of [2^e]. *)
Lemma grid_distance (k : Z) :
  (Qabs (sg * inject_Z k * 2 ^ e - q) == Qabs (s - inject_Z k) * 2 ^ e)%Q.
Proof.
  destruct grid_sign as (_ & Habs & Hsq).
  assert (E : (sg * inject_Z k * 2 ^ e - q == sg * ((inject_Z k - s) * 2 ^ e))%Q).
  { transitivity (sg * inject_Z k * 2 ^ e - sg * Qabs q)%Q.
    - apply Qplus_comp; [reflexivity|]. apply Qopp_comp. exact Hsq.
    - rewrite grid_scaled. ring. }
  rewrite E, !Qabs_Qmult, Habs, Qmult_1_l.
  rewrite (Qabs_pos (2 ^ e)) by apply Qlt_le_weak, pow2_pos.
  now rewrite (Qabs_Qminus (inject_Z k)).
Qed.

(** [round_double] picks a nearest multiple of [2^e]. *)
Lemma grid_nearest (k : Z) :
  (Qabs (round_double q - q) <= Qabs (inject_Z k * 2 ^ e - q))%Q.
Proof.
  destruct grid_sign as (Hss & _ & _).
  assert (Ek : (inject_Z k == sg * inject_Z (Zsign q * k))%Q).
  { rewrite inject_Z_mult. fold sg. rewrite Qmult_assoc, Hss. ring. }
  rewrite Ek, grid_round, !grid_distance.
  apply Qmult_le_compat_r; [|apply Qlt_le_weak, pow2_pos].
  apply round_half_even_nearest, grid_scaled_nonneg.
Qed.

Lemma grid_scaled_below : (s < 2 ^ 53)%Q.
Proof.
  destruct (binade_spec q Hq) as [_ Hb].
  unfold s. apply Qlt_shift_div_r; [apply pow2_pos|].
  eapply Qlt_le_trans; [exact Hb|].
  rewrite <- pow2_plus. apply pow2_le. unfold e. lia.
Qed.

Lemma grid_significand : 0 <= round_half_even s <= 2 ^ 53.
Proof.
  destruct (round_half_even_near s grid_scaled_nonneg) as [H0 Hm].
  split; [exact H0|].
  pose proof grid_scaled_below as Hs.
  apply Z.lt_succ_r. rewrite Zlt_Qlt.
  unfold Z.succ. rewrite inject_Z_plus.
  change (inject_Z (2 ^ 53)) with (2 ^ 53)%Q. change (inject_Z 1) with 1%Q.
  revert Hm Hs. generalize (inject_Z (round_half_even s)) (2 ^ 53)%Q. intros a b.
  apply Qabs_case; intros; lra.
Qed.
End Grid.

Lemma round_double_double (q : Q) : double (round_double q).
Proof.
  destruct (Qeq_dec q 0) as [H0 | H0].
  - rewrite (round_double_0 q H0). exists 0, 0. split; [|split]; [simpl; lia | lia | reflexivity].
  - exists (Zsign q * round_half_even (Qabs q / 2 ^ Z.max (binade q - 52) (-1074))),
      (Z.max (binade q - 52) (-1074)).
    pose proof (grid_significand q H0) as Hm. cbv zeta in Hm.
    split; [|split].
    + unfold Zsign. destruct (Qle_bool 0 q); lia.
    + lia.
    + rewrite (grid_round q H0), inject_Z_mult. reflexivity.
Qed.

(** No double is nearer to [q] than [round_double q]. *)
Lemma round_double_nearest (q d : Q) :
  double d -> (Qabs (round_double q - q) <= Qabs (d - q))%Q.
Proof.
  intros (m' & e' & Hm' & He' & Hd).
  destruct (Qeq_dec q 0) as [H0 | H0].
  { rewrite (round_double_0 q H0), H0. apply Qabs_nonneg. }
  pose proof (grid_nearest q H0) as Hnear. cbv zeta in Hnear.
  set (e := Z.max (binade q - 52) (-1074)) in *.
  destruct (Z.le_gt_cases e e') as [Hle | Hgt].
  - assert (E : (d == inject_Z (m' * 2 ^ (e' - e)) * 2 ^ e)%Q).
    { rewrite Hd, inject_Z_mult, pow2_inject by lia.
      rewrite <- Qmult_assoc, <- pow2_plus. now replace (e' - e + e) with e' by lia. }
    rewrite E. apply Hnear.
  - assert (Eb : e = binade q - 52) by (unfold e; lia).
    destruct (binade_spec q H0) as [Hb _].
    destruct (grid_sign q) as (Hss & Habs & Hsq).
    set (sg := inject_Z (Zsign q)) in *.
    eapply Qle_trans; [apply (Hnear (Zsign q * 2 ^ 52))|].
    assert (E : (inject_Z (Zsign q * 2 ^ 52) * 2 ^ e - q == sg * (2 ^ binade q - Qabs q))%Q).
    { rewrite inject_Z_mult. fold sg.
      change (inject_Z (2 ^ 52)) with (2 ^ 52)%Q.
      replace (binade q) with (52 + e) by lia. rewrite pow2_plus.
      transitivity (sg * 2 ^ 52 * 2 ^ e - sg * Qabs q)%Q; [|ring].
      apply Qplus_comp; [reflexivity|]. apply Qopp_comp. exact Hsq. }
    rewrite E, Qabs_Qmult, Habs, Qmult_1_l.
    assert (Hd' : (Qabs d <= 2 ^ binade q)%Q).
    { rewrite Hd, Qabs_Qmult. rewrite (Qabs_pos (2 ^ e')) by apply Qlt_le_weak, pow2_pos.
      apply Qle_trans with (2 ^ 53 * 2 ^ e')%Q.
      - apply Qmult_le_compat_r; [|apply Qlt_le_weak, pow2_pos].
        change (Qabs (inject_Z m')) with (inject_Z (Z.abs m')).
        change (2 ^ 53)%Q with (inject_Z (2 ^ 53)). now rewrite <- Zle_Qle.
      - rewrite <- pow2_plus. apply pow2_le. lia. }
    pose proof (Qabs_triangle_reverse q d) as Htri.
    rewrite (Qabs_Qminus d q).
    revert Hb Hd' Htri. generalize (2 ^ binade q)%Q (Qabs q) (Qabs d) (Qabs (q - d)).
    intros a b c t. apply Qabs_case; intros; lra.
Qed.







(** A negative duration, which [record_quiz_result] can store, is printed
    with the floor of the minutes and a remainder that is not negative; a
    negative float so small that adding 60 rounds to 60 is printed with 60
    seconds. *)
Example format_time_negative :
  format_time (Float (-50)) = "-1m 10s"
  /\ format_time (Int (-50)) = "-1m 10s"
  /\ format_time (Float (-6646139978924579 # 664613997892457936451903530140172288))
     = "-1m 60s".
Proof. repeat split; vm_compute; reflexivity. Qed.

(** C9.  A score whose value is a whole number [z] is printed as the digits
    of [z], with no decimal point, whether it is stored as an int or as a
    float; a score with a fractional part is printed as a sign, the digits of
    a whole number, a point and exactly one digit, which is the value rounded
    to one decimal.  So [10.0] gives ["10"], [10.5] gives ["10.5"] and [-2]
    gives ["-2"]. *)
Theorem score_str_rendering :
  (forall score : num,
     (forall z : Z, (num_val score == inject_Z z)%Q ->
        score_str score = str_int z /\ no_point (score_str score))
     /\ ((forall z : Z, ~ (num_val score == inject_Z z)%Q) ->
         exists (sign : string) (whole digit : Z),
           ((num_val score < 0)%Q /\ sign = "-" \/ (0 < num_val score)%Q /\ sign = "")
           /\ 0 <= whole /\ 0 <= digit <= 9
           /\ score_str score = sign ++ str_int whole ++ "." ++ str_int digit
           /\ no_point (str_int whole) /\ String.length (str_int digit) = 1%nat
           /\ (Qabs (Qabs (num_val score) * 10 - inject_Z (10 * whole + digit)) <= 1 # 2)%Q))
  /\ score_str (Float 10) = "10"
  /\ score_str (Float (21 # 2)) = "10.5"
  /\ score_str (Int (-2)) = "-2".
Proof.
  split; [|repeat split; reflexivity].
  intros score. split.
  - intros z Hz.
    assert (E : score_str score = str_int z).
    { destruct score as [z' | q]; simpl in *.
      - unfold Qeq in Hz; simpl in Hz. f_equal. lia.
      - assert (Hi : is_integer q = true) by (apply is_integer_spec; eauto).
        rewrite Hi. now rewrite (float_trunc_integral q z). }
    split; [exact E|]. rewrite E. apply no_point_str_int.
  - intros Hfrac. destruct score as [z' | q]; simpl in *.
    { exfalso. apply (Hfrac z'). reflexivity. }
    assert (Hi : is_integer q = false).
    { destruct (is_integer q) eqn:E; [|reflexivity].
      apply is_integer_spec in E as [z Hz]. now destruct (Hfrac z). }
    rewrite Hi. unfold format_1f.
    assert (Hr : (0 <= Qabs q * inject_Z 10)%Q).
    { apply Qmult_le_0_compat; [apply Qabs_nonneg | discriminate]. }
    destruct (round_half_even_near _ Hr) as [Hn Hnear].
    set (tenths := round_half_even (Qabs q * inject_Z 10)) in *.
    pose proof (Z.div_mod tenths 10 ltac:(lia)) as Hdm.
    pose proof (Z.mod_pos_bound tenths 10 ltac:(lia)) as Hmod.
    exists (match (q ?= 0)%Q with Lt => "-" | _ => "" end), (tenths / 10), (tenths mod 10).
    split.
    { destruct (Qcompare_spec q 0) as [E | E | E]; [|left; now split|right; now split].
      exfalso. apply (Hfrac 0). exact E. }
    split; [apply Z.div_pos; lia|].
    split; [lia|]. split; [reflexivity|].
    split; [apply no_point_str_int|]. split; [apply str_int_digit; lia|].
    rewrite <- Hdm. exact Hnear.
Qed.

(** ** The stable sort *)

Section SortedFacts.
Context {A K : Type} (ltb : K -> K -> bool) (key : A -> K).

Hypothesis ltb_asym : forall a b : K, ltb a b = true -> ltb b a = false.
Hypothesis le_trans :
  forall a b c : K, ltb b a = false -> ltb c b = false -> ltb c a = false.

Lemma insert_sorted_perm (x : A) (l : list A) :
  Permutation (x :: l) (insert_sorted ltb key x l).
Proof.
  induction l as [|y l IH]; simpl; [reflexivity|].
  destruct (ltb (key y) (key x)); [|reflexivity].
  rewrite perm_swap. now apply perm_skip.
Qed.

Lemma sorted_perm (l : list A) : Permutation l (sorted ltb key l).
Proof.
  induction l as [|x l IH]; simpl; [reflexivity|].
  rewrite <- insert_sorted_perm. now apply perm_skip.
Qed.

Lemma sorted_length (l : list A) : length (sorted ltb key l) = length l.
Proof. symmetry. apply Permutation_length, sorted_perm. Qed.

Lemma insert_sorted_Sorted (x : A) (l : list A) :
  Sorted (key_le ltb key) l -> Sorted (key_le ltb key) (insert_sorted ltb key x l).
Proof.
  induction l as [|y l IH]; simpl; intros Hs.
  - repeat constructor.
  - apply Sorted_inv in Hs as [Hs Hhd].
    destruct (ltb (key y) (key x)) eqn:E.
    + constructor; [now apply IH|].
      destruct l as [|z l]; simpl.
      * constructor. now apply ltb_asym.
      * apply HdRel_inv in Hhd.
        destruct (ltb (key z) (key x)); constructor; [exact Hhd | now apply ltb_asym].
    + constructor; [now constructor|]. constructor. exact E.
Qed.

Lemma sorted_Sorted (l : list A) : Sorted (key_le ltb key) (sorted ltb key l).
Proof.
  induction l as [|x l IH]; simpl; [constructor|]. now apply insert_sorted_Sorted.
Qed.

Lemma sorted_StronglySorted (l : list A) : StronglySorted (key_le ltb key) (sorted ltb key l).
Proof.
  apply Sorted_StronglySorted; [|apply sorted_Sorted].
  intros a b c Hab Hbc. unfold key_le in *. now apply (le_trans _ (key b)).
Qed.

(** An element that nothing precedes strictly goes to the front. *)
Lemma insert_sorted_front (x : A) (l : list A) :
  Forall (key_le ltb key x) l -> insert_sorted ltb key x l = x :: l.
Proof.
  destruct l as [|y l]; simpl; [reflexivity|].
  intros H. apply Forall_inv in H. unfold key_le in H. now rewrite H.
Qed.

(** Stability: a class of records that no strictly smaller record belongs
    to keeps its order. *)
Lemma filter_insert_sorted_class (P : A -> bool) (x : A) (l : list A) :
  (forall y, P x = true -> ltb (key y) (key x) = true -> P y = false) ->
  List.filter P (insert_sorted ltb key x l)
  = if P x then x :: List.filter P l else List.filter P l.
Proof.
  intros HP. induction l as [|y l IH]; simpl.
  - now destruct (P x).
  - destruct (ltb (key y) (key x)) eqn:E; simpl.
    + rewrite IH. destruct (P x) eqn:Ex.
      * now rewrite (HP y eq_refl E).
      * now destruct (P y).
    + now destruct (P x).
Qed.

Lemma filter_sorted_class (P : A -> bool) (l : list A) :
  (forall x y, P x = true -> ltb (key y) (key x) = true -> P y = false) ->
  List.filter P (sorted ltb key l) = List.filter P l.
Proof.
  intros HP. induction l as [|x l IH]; simpl; [reflexivity|].
  rewrite filter_insert_sorted_class by apply HP. now rewrite IH.
Qed.

(** Sorting commutes with any filter. *)
Lemma filter_insert_sorted (P : A -> bool) (x : A) (l : list A) :
  StronglySorted (key_le ltb key) l ->
  List.filter P (insert_sorted ltb key x l)
  = if P x then insert_sorted ltb key x (List.filter P l) else List.filter P l.
Proof.
  induction l as [|y l IH]; simpl; intros Hs.
  - now destruct (P x).
  - apply StronglySorted_inv in Hs as [Hs Hall].
    destruct (ltb (key y) (key x)) eqn:E; simpl.
    + rewrite (IH Hs). destruct (P x), (P y); simpl; try reflexivity. now rewrite E.
    + destruct (P x) eqn:Ex; [|reflexivity].
      destruct (P y) eqn:Ey; simpl; [now rewrite E|].
      rewrite insert_sorted_front; [reflexivity|].
      apply List.Forall_forall. intros z Hz. apply filter_In in Hz as [Hz _].
      rewrite List.Forall_forall in Hall. specialize (Hall z Hz).
      unfold key_le in *. now apply (le_trans _ (key y)).
Qed.

Lemma filter_sorted (P : A -> bool) (l : list A) :
  List.filter P (sorted ltb key l) = sorted ltb key (List.filter P l).
Proof.
  induction l as [|x l IH]; simpl; [reflexivity|].
  rewrite filter_insert_sorted by apply sorted_StronglySorted.
  rewrite IH. now destruct (P x).
Qed.
End SortedFacts.

(** ** The order of the sort keys *)

Lemma num_val_neg (x : num) : (num_val (py_neg x) == - num_val x)%Q.
Proof. destruct x; simpl; [rewrite inject_Z_opp|]; reflexivity. Qed.

Lemma num_eqb_spec (x y : num) :
  if num_eqb x y then (num_val x == num_val y)%Q
  else (num_val x < num_val y)%Q \/ (num_val y < num_val x)%Q.
Proof.
  unfold num_eqb. destruct (Qeq_bool (num_val x) (num_val y)) eqn:E.
  - now apply Qeq_bool_iff.
  - apply Qeq_bool_neq in E.
    destruct (Q_dec (num_val x) (num_val y)) as [[H | H] | H]; tauto.
Qed.

Lemma num_ltb_spec (x y : num) :
  if num_ltb x y then (num_val x < num_val y)%Q else (num_val y <= num_val x)%Q.
Proof.
  unfold num_ltb. destruct (Qcompare_spec (num_val x) (num_val y)) as [H | H | H]; lra.
Qed.

(** Case analysis on every comparison in sight, as facts on the values. *)
Ltac compare_nums :=
  repeat match goal with
    | H : context [num_eqb ?x ?y] |- _ =>
        let F := fresh "F" in
        pose proof (num_eqb_spec x y) as F; destruct (num_eqb x y); [|destruct F]
    | |- context [num_eqb ?x ?y] =>
        let F := fresh "F" in
        pose proof (num_eqb_spec x y) as F; destruct (num_eqb x y); [|destruct F]
    | H : context [num_ltb ?x ?y] |- _ =>
        let F := fresh "F" in
        pose proof (num_ltb_spec x y) as F; destruct (num_ltb x y)
    | |- context [num_ltb ?x ?y] =>
        let F := fresh "F" in
        pose proof (num_ltb_spec x y) as F; destruct (num_ltb x y)
    end;
  simpl in *; try discriminate; try reflexivity; try lra.


Lemma tuple_ltb_false (a b : num * xnum) : tuple_ltb b a = false <-> tuple_le a b.
Proof.
  destruct a as [a1 [a2|]], b as [b1 [b2|]]; unfold tuple_ltb, tuple_le; simpl;
    (split; [intros H; compare_nums | intros [H | [H H']]; compare_nums]); tauto.
Qed.

Lemma tuple_ltb_true (a b : num * xnum) : tuple_ltb b a = true <-> ~ tuple_le a b.
Proof. rewrite <- tuple_ltb_false. destruct (tuple_ltb b a); intuition congruence. Qed.

Lemma tuple_le_total (a b : num * xnum) : tuple_le a b \/ tuple_le b a.
Proof.
  destruct a as [a1 [a2|]], b as [b1 [b2|]]; unfold tuple_le; simpl;
    destruct (Q_dec (num_val a1) (num_val b1)) as [[H | H] | H]; try tauto;
    try (right; right; split; [now symmetry | exact I]).
  destruct (Qlt_le_dec (num_val a2) (num_val b2)) as [H' | H'].
  - left; right; split; [exact H | lra].
  - right; right; split; [now symmetry | exact H'].
Qed.

Lemma tuple_le_transitive (a b c : num * xnum) : tuple_le a b -> tuple_le b c -> tuple_le a c.
Proof.
  destruct a as [a1 [a2|]], b as [b1 [b2|]], c as [c1 [c2|]]; unfold tuple_le; simpl;
    intros [H1 | [H1 H1']] [H2 | [H2 H2']]; try tauto;
    try (left; lra); right; (split; [lra | try exact I; try lra]).
Qed.

Lemma tuple_ltb_asym (a b : num * xnum) : tuple_ltb a b = true -> tuple_ltb b a = false.
Proof.
  rewrite tuple_ltb_true, tuple_ltb_false. intros H.
  destruct (tuple_le_total a b) as [H' | H']; tauto.
Qed.

Lemma tuple_le_trans (a b c : num * xnum) :
  tuple_ltb b a = false -> tuple_ltb c b = false -> tuple_ltb c a = false.
Proof. rewrite !tuple_ltb_false. apply tuple_le_transitive. Qed.

Lemma key_le_ranked (a b : Entry.t) :
  key_le tuple_ltb sort_key a b -> ranked_before a b.
Proof.
  unfold key_le. rewrite tuple_ltb_false.
  unfold tuple_le, ranked_before, sort_key, score_of, time_le, time_of; simpl.
  rewrite !num_val_neg.
  intros [H | [H H']]; [left; lra | right; split; [lra|]].
  destruct (Entry.completion_time a), (Entry.completion_time b); simpl in *; tauto.
Qed.

Lemma tied_tuple_le (a b : Entry.t) :
  tied a b = true ->
  tuple_le (sort_key a) (sort_key b) /\ tuple_le (sort_key b) (sort_key a).
Proof.
  unfold tied, tuple_le, sort_key, score_of, time_of; simpl. rewrite !num_val_neg.
  intros H. apply andb_prop in H as [Hs Ht]. apply Qeq_bool_iff in Hs.
  destruct (Entry.completion_time a) as [x|], (Entry.completion_time b) as [y|];
    simpl in *; try discriminate.
  - apply Qeq_bool_iff in Ht. split; right; split; lra.
  - split; right; split; (lra || exact I).
Qed.

Lemma tied_class (r x y : Entry.t) :
  tied r x = true -> tuple_ltb (sort_key y) (sort_key x) = true -> tied r y = false.
Proof.
  intros Hx Hlt. destruct (tied r y) eqn:Hy; [|reflexivity].
  apply tuple_ltb_true in Hlt. exfalso. apply Hlt.
  apply tied_tuple_le in Hx as [_ Hx]. apply tied_tuple_le in Hy as [Hy _].
  exact (tuple_le_transitive _ _ _ Hx Hy).
Qed.

Lemma Sorted_lookup_adjacent {A : Type} (R : A -> A -> Prop) (l : list A) (i : nat) (a b : A) :
  Sorted R l -> l !! i = Some a -> l !! S i = Some b -> R a b.
Proof.
  intros Hs. revert i. induction Hs as [|x l Hs IH Hhd]; intros i Ha Hb; [discriminate|].
  destruct i as [|i]; simpl in *.
  - injection Ha as ->. destruct Hhd as [|y l' Hxy]; [discriminate|].
    simpl in Hb. now injection Hb as ->.
  - exact (IH i Ha Hb).
Qed.

Lemma py_slice_to_take {A : Type} (l : list A) (stop : Z) :
  exists n : nat, py_slice_to l stop = take n l.
Proof. unfold py_slice_to. destruct (stop <? 0); eauto. Qed.

Lemma py_slice_to_nonneg {A : Type} (l : list A) (stop : Z) :
  0 <= stop -> py_slice_to l stop = take (Z.to_nat stop) l.
Proof. unfold py_slice_to. intros H. destruct (Z.ltb_spec stop 0); [lia | reflexivity]. Qed.

Lemma py_slice_to_all {A : Type} (l : list A) (stop : Z) :
  Z.of_nat (length l) <= stop -> py_slice_to l stop = l.
Proof.
  intros H. rewrite py_slice_to_nonneg by lia. apply take_ge. lia.
Qed.

Lemma filter_take_prefix {A : Type} (P : A -> bool) (n : nat) (l : list A) :
  List.filter P (take n l) `prefix_of` List.filter P l.
Proof.
  exists (List.filter P (drop n l)).
  now rewrite <- List.filter_app, take_drop.
Qed.

(** What a query returns once the stored records are loaded. *)
Lemma get_leaderboard_loaded (w w1 : world) (results : list Entry.t)
    (quiz_id : option pyid) (limit : Z) :
  load_results w = (w1, Ok (Records results)) ->
  get_leaderboard quiz_id limit w
  = (w1, Ok (py_slice_to (sorted tuple_ltb sort_key (matching quiz_id results)) limit)).
Proof.
  intros H. unfold get_leaderboard, bind. rewrite H.
  destruct quiz_id; reflexivity.
Qed.


(** ** The store, run on a directory tree *)

Lemma components_RESULTS_FILE :
  path_components RESULTS_FILE = ["data"; "leaderboard_results.json"].
Proof. reflexivity. Qed.

Lemma dirname_RESULTS_FILE : os_path_dirname RESULTS_FILE = "data".
Proof. reflexivity. Qed.

Lemma set_files_same (w : world) : set_files w (files w) = w.
Proof. now destruct w. Qed.

Lemma os_makedirs_data (w : world) :
  os_makedirs "data" w =
  match files w !! "data" with
  | None => (set_files w (<["data" := Dir ∅]> (files w)), Ok tt)
  | Some (Dir _) => (w, Ok tt)
  | Some (File _ _ _) => (w, Raise FileExistsError)
  end.
Proof.
  unfold os_makedirs, change_files; simpl.
  destruct (files w !! "data") as [[r wr c | inside]|]; try reflexivity.
  now rewrite set_files_same.
Qed.

Lemma os_path_exists_RESULTS_FILE (w : world) :
  os_path_exists RESULTS_FILE w =
  (w, Ok (match files w !! "data" with
          | Some (Dir inside) => bool_decide (is_Some (inside !! "leaderboard_results.json"))
          | _ => false
          end)).
Proof.
  unfold os_path_exists. rewrite components_RESULTS_FILE. simpl.
  now destruct (files w !! "data") as [[? ? ? | inside]|].
Qed.

Lemma open_r_RESULTS_FILE (w : world) :
  open_r RESULTS_FILE w =
  (w, match files w !! "data" with
      | None => Raise FileNotFoundError
      | Some (File _ _ _) => Raise NotADirectoryError
      | Some (Dir inside) =>
          match inside !! "leaderboard_results.json" with
          | None => Raise FileNotFoundError
          | Some (Dir _) => Raise IsADirectoryError
          | Some (File r _ c) => if r then Ok c else Raise PermissionError
          end
      end).
Proof. unfold open_r. now rewrite components_RESULTS_FILE. Qed.

(** [load_results], case by case on what the two names refer to. *)
Lemma load_results_run (w : world) :
  load_results w =
  match files w !! "data" with
  | None => (set_files w (<["data" := Dir ∅]> (files w)), Ok (Records []))
  | Some (File _ _ _) => (w, Raise FileExistsError)
  | Some (Dir inside) =>
      match inside !! "leaderboard_results.json" with
      | None => (w, Ok (Records []))
      | Some (Dir _) => (w, Raise IsADirectoryError)
      | Some (File false _ _) => (w, Raise PermissionError)
      | Some (File true _ (Json doc)) => (w, Ok doc)
      | Some (File true _ Not_json) => (w, Ok (Records []))
      | Some (File true _ Not_utf8) => (w, Raise UnicodeDecodeError)
      end
  end.
Proof.
  unfold load_results, bind, try_except.
  rewrite os_path_exists_RESULTS_FILE, dirname_RESULTS_FILE.
  destruct (files w !! "data") as [[r wr c | inside]|] eqn:Hd.
  - simpl (negb _). cbv iota beta. now rewrite os_makedirs_data, Hd.
  - destruct (inside !! "leaderboard_results.json") as [[[] wr [doc| |] | sub]|] eqn:Hf;
      simpl (negb _); cbv iota beta;
      rewrite ?os_makedirs_data, ?open_r_RESULTS_FILE, ?Hd, ?Hf; reflexivity.
  - simpl (negb _). cbv iota beta. now rewrite os_makedirs_data, Hd.
Qed.

(** What is stored, read through [holds]. *)
Lemma holds_inv (w : world) (r wr : bool) (c : content) :
  holds w r wr c <->
  exists inside, files w !! "data" = Some (Dir inside)
                 /\ inside !! "leaderboard_results.json" = Some (File r wr c).
Proof.
  unfold holds. rewrite components_RESULTS_FILE. simpl. split.
  - destruct (files w !! "data") as [[? ? ? | inside]|]; try discriminate. eauto.
  - intros (inside & -> & H). exact H.
Qed.

(** [save_results] on a directory [data], which may hold the file. *)
Lemma save_results_run (w : world) (results : list Entry.t) (inside : gmap string node) :
  files w !! "data" = Some (Dir inside) ->
  save_results results w =
  match truncated (inside !! "leaderboard_results.json") with
  | Raise e => (w, Raise e)
  | Ok (Dir _) => (w, Raise OSError)
  | Ok (File r wr _) =>
      if io_fault w
      then (set_files w (<["data" := Dir (<["leaderboard_results.json" := File r wr Not_json]> inside)]> (files w)),
            Raise OSError)
      else (set_files w (<["data" := Dir (<["leaderboard_results.json" := File r wr (Json (Records results))]> inside)]> (files w)),
            Ok tt)
  end.
Proof.
  intros Hd. unfold save_results, bind. rewrite dirname_RESULTS_FILE, os_makedirs_data, Hd.
  unfold open_w, json_dump, change_files. rewrite components_RESULTS_FILE. simpl.
  rewrite Hd.
  destruct (truncated (inside !! "leaderboard_results.json")) as [[r wr c | sub] | e] eqn:Ht;
    simpl; try reflexivity.
  - rewrite !lookup_insert_eq. simpl.
    destruct (io_fault w); simpl; rewrite ?lookup_insert_eq; simpl;
      rewrite ?insert_insert_eq; reflexivity.
  - unfold truncated in Ht.
    destruct (inside !! "leaderboard_results.json") as [[? [] ? | ?]|]; discriminate.
Qed.

(** ** Ranker *)

(** C1.  Whatever is stored, whatever the quiz filter and the limit, two
    neighbours [a], [b] of the view returned by [get_leaderboard] satisfy
    [a.score > b.score], or [a.score == b.score] and [a] is not slower than
    [b], a record without a time being infinitely slow; and the sort is
    stable: for every record [r], the entries of the view tied with [r] on
    both keys are, in this order, the first stored records (of those the
    filter keeps) tied with [r]. *)
Theorem get_leaderboard_ranked (w w1 : world) (results : list Entry.t)
    (quiz_id : option pyid) (limit : Z) :
  load_results w = (w1, Ok (Records results)) ->
  exists view : list Entry.t,
    get_leaderboard quiz_id limit w = (w1, Ok view)
    /\ (forall (i : nat) (a b : Entry.t),
          view !! i = Some a -> view !! S i = Some b -> ranked_before a b)
    /\ (forall r : Entry.t,
          List.filter (tied r) view
          `prefix_of` List.filter (tied r) (matching quiz_id results)).
Proof.
  intros Hload. rewrite (get_leaderboard_loaded _ _ _ _ _ Hload).
  eexists. split; [reflexivity|].
  destruct (py_slice_to_take (sorted tuple_ltb sort_key (matching quiz_id results)) limit)
    as [n ->].
  split.
  - intros i a b Ha Hb.
    apply lookup_take_Some in Ha as [Ha _]. apply lookup_take_Some in Hb as [Hb _].
    apply key_le_ranked.
    refine (Sorted_lookup_adjacent _ _ i a b _ Ha Hb).
    apply sorted_Sorted. exact tuple_ltb_asym.
  - intros r.
    rewrite <- (filter_sorted_class tuple_ltb sort_key (tied r) (matching quiz_id results))
      by apply tied_class.
    apply filter_take_prefix.
Qed.

(** The ranking of quiz Q1 over the sample data. *)
Lemma get_leaderboard_ranked_witness :
  exists view : list Entry.t,
    get_leaderboard (Some (IdStr "Q1")) 15 sample_world = (sample_world, Ok view)
    /\ (forall (i : nat) (a b : Entry.t),
          view !! i = Some a -> view !! S i = Some b -> ranked_before a b)
    /\ (forall r : Entry.t,
          List.filter (tied r) view
          `prefix_of` List.filter (tied r) (matching (Some (IdStr "Q1")) sample_results)).
Proof.
  apply (get_leaderboard_ranked sample_world sample_world sample_results). reflexivity.
Defined.

(** The length of a view for a limit that is not negative. *)
Lemma get_leaderboard_length (w w1 : world) (results : list Entry.t)
    (quiz_id : option pyid) (limit : Z) :
  load_results w = (w1, Ok (Records results)) ->
  0 <= limit ->
  exists view : list Entry.t,
    get_leaderboard quiz_id limit w = (w1, Ok view)
    /\ Z.of_nat (length view) = Z.min limit (Z.of_nat (length (matching quiz_id results))).
Proof.
  intros Hload Hl. rewrite (get_leaderboard_loaded _ _ _ _ _ Hload).
  eexists. split; [reflexivity|].
  rewrite py_slice_to_nonneg, length_take, sorted_length by exact Hl. lia.
Qed.

(** C2, on the code.  With four stored records and the limit [-1] the view
    has three entries: [sorted_results[:-1]] drops the last entry instead of
    returning nothing. *)
Theorem get_leaderboard_negative_limit :
  exists view : list Entry.t,
    get_leaderboard None (-1) sample_world = (sample_world, Ok view)
    /\ length (matching None sample_results) = 4%nat
    /\ length view = 3%nat.
Proof.
  exists (py_slice_to (sorted tuple_ltb sort_key sample_results) (-1)).
  split; [|split]; reflexivity.
Qed.

(** The test of the filter holds exactly of the records whose ["quiz_id"]
    field is the given text. *)
Lemma quiz_id_is_field (quiz_id : string) (r : Entry.t) :
  quiz_id_is quiz_id r = bool_decide (Entry.quiz_id r = Some quiz_id).
Proof.
  unfold quiz_id_is. destruct (Entry.quiz_id r) as [s|].
  - destruct (String.eqb_spec s quiz_id) as [-> | Hne].
    + now rewrite bool_decide_eq_true_2.
    + rewrite bool_decide_eq_false_2; [reflexivity | congruence].
  - now rewrite bool_decide_eq_false_2.
Qed.

Lemma filter_quiz_id_is (quiz_id : string) (l : list Entry.t) :
  List.filter (quiz_id_is quiz_id) l
  = List.filter (fun r => bool_decide (Entry.quiz_id r = Some quiz_id)) l.
Proof. apply List.filter_ext. intros r. apply quiz_id_is_field. Qed.

(** C3.  A query for quiz [x] returns only records whose [quiz_id] field is
    [str(x)]; it is the first [limit] entries of the unfiltered view (taken
    with a limit that returns everything) restricted to the records with that
    field, in the same order; when [limit] is large enough it is all of them,
    and then holds exactly the stored records with that field. *)
Theorem get_leaderboard_filter (w w1 : world) (results : list Entry.t)
    (x : pyid) (limit limit_all : Z) :
  load_results w = (w1, Ok (Records results)) ->
  Z.of_nat (length results) <= limit_all ->
  exists view_x view_all : list Entry.t,
    get_leaderboard (Some x) limit w = (w1, Ok view_x)
    /\ get_leaderboard None limit_all w = (w1, Ok view_all)
    /\ (forall r : Entry.t, In r view_x -> Entry.quiz_id r = Some (py_str x))
    /\ view_x
       = py_slice_to
           (List.filter (fun r => bool_decide (Entry.quiz_id r = Some (py_str x))) view_all)
           limit
    /\ (Z.of_nat (length results) <= limit ->
        view_x = List.filter (fun r => bool_decide (Entry.quiz_id r = Some (py_str x))) view_all
        /\ forall r : Entry.t,
             In r view_x <-> In r results /\ Entry.quiz_id r = Some (py_str x)).
Proof.
  intros Hload Hall. rewrite !(get_leaderboard_loaded _ _ _ _ _ Hload).
  do 2 eexists. split; [reflexivity|]. split; [reflexivity|].
  simpl matching.
  rewrite (py_slice_to_all _ limit_all) by now rewrite sorted_length.
  rewrite <- filter_quiz_id_is.
  rewrite (filter_sorted tuple_ltb sort_key tuple_ltb_asym tuple_le_trans).
  set (mine := List.filter (quiz_id_is (py_str x)) results).
  assert (Hmine : forall r : Entry.t,
            In r (sorted tuple_ltb sort_key mine)
            <-> In r results /\ Entry.quiz_id r = Some (py_str x)).
  { intros r. unfold mine. rewrite <- (bool_decide_eq_true (Entry.quiz_id r = _)).
    rewrite <- quiz_id_is_field, <- filter_In. split.
    - apply Permutation_in, Permutation_sym, sorted_perm.
    - apply Permutation_in, sorted_perm. }
  split; [|split; [reflexivity|]].
  - intros r Hr.
    destruct (py_slice_to_take (sorted tuple_ltb sort_key mine) limit) as [n Hn].
    rewrite Hn in Hr. apply list_elem_of_In, elem_of_take in Hr as (i & Hr & _).
    apply list_elem_of_lookup_2, list_elem_of_In in Hr.
    now apply Hmine in Hr.
  - intros Hlim.
    assert (E : py_slice_to (sorted tuple_ltb sort_key mine) limit
                = sorted tuple_ltb sort_key mine).
    { apply py_slice_to_all. rewrite sorted_length.
      pose proof (List.filter_length_le (quiz_id_is (py_str x)) results). fold mine in H. lia. }
    rewrite E. split; [reflexivity | exact Hmine].
Qed.

(** Quiz Q1 against all quizzes, over the sample data. *)
Lemma get_leaderboard_filter_witness :
  exists view_x view_all : list Entry.t,
    get_leaderboard (Some (IdStr "Q1")) 15 sample_world = (sample_world, Ok view_x)
    /\ get_leaderboard None 15 sample_world = (sample_world, Ok view_all)
    /\ (forall r : Entry.t, In r view_x -> Entry.quiz_id r = Some (py_str (IdStr "Q1")))
    /\ view_x
       = py_slice_to
           (List.filter (fun r => bool_decide (Entry.quiz_id r = Some (py_str (IdStr "Q1"))))
              view_all)
           15
    /\ (Z.of_nat (length sample_results) <= 15 ->
        view_x
        = List.filter (fun r => bool_decide (Entry.quiz_id r = Some (py_str (IdStr "Q1"))))
            view_all
        /\ forall r : Entry.t,
             In r view_x <-> In r sample_results /\ Entry.quiz_id r = Some (py_str (IdStr "Q1"))).
Proof.
  apply (get_leaderboard_filter sample_world sample_world sample_results);
    [reflexivity | vm_compute; discriminate].
Defined.

(** ** Store *)

(** C4, amended.  [load_results] returns the stored JSON value when the
    results file is readable and holds JSON text, and the empty list when the
    file holds text that is not JSON, or is absent while the name [data] is
    free or a directory.  The other failures reach the caller: an unreadable
    file raises [PermissionError], bytes that are not UTF-8 raise
    [UnicodeDecodeError], a directory in the place of the file raises
    [IsADirectoryError], a file in the place of the directory [data] raises
    [FileExistsError]. *)
Theorem load_results_outcomes (w : world) :
  (forall (wr : bool) (doc : document),
     holds w true wr (Json doc) -> load_results w = (w, Ok doc))
  /\ (forall wr : bool,
        holds w true wr Not_json -> load_results w = (w, Ok (Records [])))
  /\ (resolve (files w) (path_components RESULTS_FILE) = None ->
      (forall r wr c, files w !! "data" <> Some (File r wr c)) ->
      snd (load_results w) = Ok (Records []))
  /\ (forall (wr : bool) (c : content),
        holds w false wr c -> load_results w = (w, Raise PermissionError))
  /\ (forall wr : bool,
        holds w true wr Not_utf8 -> load_results w = (w, Raise UnicodeDecodeError))
  /\ (forall inside : gmap string node,
        resolve (files w) (path_components RESULTS_FILE) = Some (Dir inside) ->
        load_results w = (w, Raise IsADirectoryError))
  /\ (forall r wr c,
        files w !! "data" = Some (File r wr c) ->
        load_results w = (w, Raise FileExistsError)).
Proof.
  rewrite load_results_run. repeat split.
  - intros wr doc (inside & -> & ->)%holds_inv. reflexivity.
  - intros wr (inside & -> & ->)%holds_inv. reflexivity.
  - rewrite components_RESULTS_FILE; simpl. intros Hno Hfree.
    destruct (files w !! "data") as [[r wr c | inside]|] eqn:Hd.
    + now destruct (Hfree r wr c).
    + now rewrite Hno.
    + reflexivity.
  - intros wr c (inside & -> & ->)%holds_inv. reflexivity.
  - intros wr (inside & -> & ->)%holds_inv. reflexivity.
  - rewrite components_RESULTS_FILE; simpl. intros inside.
    destruct (files w !! "data") as [[r wr c | inside']|]; try discriminate.
    now intros ->.
  - now intros r wr c ->.
Qed.

(** C4 as stated fails: an unreadable results file makes [load_results]
    raise [PermissionError]; it does not return the empty list. *)
Lemma load_results_unreadable :
  holds unreadable_world false true (Json (Records sample_results))
  /\ load_results unreadable_world = (unreadable_world, Raise PermissionError)
  /\ snd (load_results unreadable_world) <> Ok (Records []).
Proof. split; [reflexivity|]. split; [reflexivity | discriminate]. Qed.

(** C10, amended.  When the results file does not exist and the name [data]
    is not taken by a file, [load_results] returns the empty list with the
    directory [data] in place: created empty when it was missing, which is the
    only change to the tree, and left as it was when there, the world being
    then unchanged.  No other name of the working directory, nor the clock,
    nor the device is touched, and a second call changes nothing. *)
Theorem load_results_creates_directory (w : world) :
  resolve (files w) (path_components RESULTS_FILE) = None ->
  (forall r wr c, files w !! "data" <> Some (File r wr c)) ->
  exists w' : world,
    load_results w = (w', Ok (Records []))
    /\ (exists inside, files w' !! "data" = Some (Dir inside))
    /\ (files w !! "data" = None -> files w' = <["data" := Dir ∅]> (files w))
    /\ ((exists inside, files w !! "data" = Some (Dir inside)) -> w' = w)
    /\ (forall name : string, name <> "data" -> files w' !! name = files w !! name)
    /\ clock w' = clock w /\ io_fault w' = io_fault w
    /\ load_results w' = (w', Ok (Records [])).
Proof.
  rewrite components_RESULTS_FILE; simpl. intros Hno Hfree.
  rewrite load_results_run.
  destruct (files w !! "data") as [[r wr c | inside]|] eqn:Hd.
  - now destruct (Hfree r wr c).
  - rewrite Hno. exists w. rewrite load_results_run, Hd, Hno.
    repeat split; eauto. intros [=].
  - eexists. split; [reflexivity|]. rewrite load_results_run. simpl.
    rewrite lookup_insert_eq, lookup_empty.
    repeat split; eauto.
    + intros [inside [=]].
    + intros name Hn. now rewrite lookup_insert_ne.
Qed.

(** In a working directory with nothing in it. *)
Lemma load_results_creates_directory_witness :
  exists w' : world,
    load_results empty_world = (w', Ok (Records []))
    /\ (exists inside, files w' !! "data" = Some (Dir inside))
    /\ (files empty_world !! "data" = None -> files w' = <["data" := Dir ∅]> (files empty_world))
    /\ ((exists inside, files empty_world !! "data" = Some (Dir inside)) -> w' = empty_world)
    /\ (forall name : string, name <> "data" -> files w' !! name = files empty_world !! name)
    /\ clock w' = clock empty_world /\ io_fault w' = io_fault empty_world
    /\ load_results w' = (w', Ok (Records [])).
Proof.
  apply (load_results_creates_directory empty_world); [reflexivity|].
  intros r wr c. discriminate.
Defined.

(** C10 as stated fails: with the name [data] taken by a file, the results
    file does not exist, and [load_results] raises [FileExistsError] without
    creating anything. *)
Lemma load_results_directory_name_taken :
  resolve (files occupied_world) (path_components RESULTS_FILE) = None
  /\ load_results occupied_world = (occupied_world, Raise FileExistsError).
Proof. split; reflexivity. Qed.

Lemma total_seconds_normal (n : Z) :
  n <> 0 -> (2 ^ (-1022) <= Qabs (inject_Z n / inject_Z 1000000))%Q.
Proof.
  intros Hn. apply Qle_trans with (2 ^ (-20))%Q; [apply pow2_le; lia|].
  apply Qle_trans with (1 / inject_Z 1000000)%Q; [discriminate|].
  unfold Qdiv. rewrite Qabs_Qmult. apply Qmult_le_compat_r; [|discriminate].
  change (Qabs (inject_Z n)) with (inject_Z (Z.abs n)).
  change 1%Q with (inject_Z 1). rewrite <- Zle_Qle. lia.
Qed.

Lemma total_seconds_zero (n : Z) : (inject_Z n / inject_Z 1000000 == 0)%Q <-> n = 0.
Proof.
  unfold Qeq, Qdiv, Qmult, Qinv, inject_Z; simpl. lia.
Qed.

(** The stored duration is the exact one rounded: off by at most half a unit
    in the last of 53 bits. *)
Lemma total_seconds_near (end_us start_us : Z) :
  (Qabs (num_val (total_seconds end_us start_us)
         - inject_Z (end_us - start_us) / inject_Z 1000000)
   <= Qabs (inject_Z (end_us - start_us) / inject_Z 1000000) * 2 ^ (-53))%Q.
Proof.
  unfold total_seconds, num_val.
  destruct (Z.eq_dec (end_us - start_us) 0) as [E | E].
  - rewrite E. discriminate.
  - apply round_double_near, total_seconds_normal, E.
Qed.

(** It is a double, and no double is nearer to the exact duration. *)
Lemma total_seconds_nearest (end_us start_us : Z) :
  double (num_val (total_seconds end_us start_us))
  /\ forall d : Q,
       double d ->
       (Qabs (num_val (total_seconds end_us start_us)
              - inject_Z (end_us - start_us) / inject_Z 1000000)
        <= Qabs (d - inject_Z (end_us - start_us) / inject_Z 1000000))%Q.
Proof.
  unfold total_seconds, num_val. split; [apply round_double_double|].
  intros d. apply round_double_nearest.
Qed.

Lemma total_seconds_sign (end_us start_us : Z) :
  (0 <= num_val (total_seconds end_us start_us))%Q <-> start_us <= end_us.
Proof.
  assert (Hx : (0 <= inject_Z (end_us - start_us) / inject_Z 1000000)%Q <-> start_us <= end_us).
  { unfold Qle, Qdiv, Qmult, Qinv, inject_Z; simpl. lia. }
  rewrite <- Hx. unfold total_seconds, num_val.
  destruct (Z.eq_dec (end_us - start_us) 0) as [E | E].
  - rewrite E. split; discriminate.
  - apply round_double_sign, total_seconds_normal, E.
Qed.

(** A whole number of seconds is stored as it is. *)
Lemma total_seconds_whole (end_us start_us s : Z) :
  end_us - start_us = 1000000 * s -> Z.abs s < 2 ^ 53 ->
  (num_val (total_seconds end_us start_us) == inject_Z s)%Q.
Proof.
  intros E Hs. unfold total_seconds, num_val. apply round_double_integer; [|exact Hs].
  rewrite E, inject_Z_mult. field.
Qed.

Section Submission.
Variables (quiz_id user_id : pyid) (user_name : string) (score : num).
Variables (correct_answers total_questions : Z) (start_time end_time : pytime).

Local Abbreviation submit :=
  (record_quiz_result quiz_id user_id user_name score correct_answers total_questions
     start_time end_time).

(** [record_quiz_result] after the load: the new entry goes to the end and
    everything is written back. *)
Lemma record_quiz_result_run (w : world) :
  submit w =
  match load_results w with
  | (w1, Ok (Records old)) =>
      save_results
        (old ++ [{| Entry.quiz_id := Some (py_str quiz_id);
                    Entry.user_id := Some (py_str user_id);
                    Entry.user_name := Some user_name;
                    Entry.score := Some score;
                    Entry.correct_answers := Some correct_answers;
                    Entry.total_questions := Some total_questions;
                    Entry.completion_time :=
                      Some match start_time, end_time with
                           | Datetime start_us, Datetime end_us => total_seconds end_us start_us
                           | _, _ => Int 0
                           end;
                    Entry.timestamp := Some (clock w1) |}])%list w1
  | (w1, Ok _) => (w1, Raise AttributeError)
  | (w1, Raise e) => (w1, Raise e)
  end.
Proof.
  unfold record_quiz_result, bind, datetime_now_isoformat.
  destruct (load_results w) as [w1 [[old | | |] | e]]; reflexivity.
Qed.

(** The worlds in which a load returns a list, and what the store looks like
    after it. *)
Lemma load_results_records (w w1 : world) (old : list Entry.t) :
  load_results w = (w1, Ok (Records old)) ->
  clock w1 = clock w /\ io_fault w1 = io_fault w
  /\ exists inside : gmap string node,
       files w1 !! "data" = Some (Dir inside)
       /\ files w1 = <["data" := Dir inside]> (files w)
       /\ (inside !! "leaderboard_results.json" = None /\ old = []
           \/ exists wr c, inside !! "leaderboard_results.json" = Some (File true wr c)
                           /\ holds w true wr c
                           /\ (c = Json (Records old) \/ c = Not_json /\ old = [])).
Proof.
  rewrite load_results_run.
  destruct (files w !! "data") as [[r wr c | inside]|] eqn:Hd.
  - discriminate.
  - assert (Hsame : files w = <["data" := Dir inside]> (files w)) by now rewrite insert_id.
    destruct (inside !! "leaderboard_results.json") as [[[] wr [doc| |] | sub]|] eqn:Hf;
      intros H; inversion H; subst; clear H;
      (split; [reflexivity|]); (split; [reflexivity|]);
      exists inside; (split; [exact Hd|]); (split; [exact Hsame|]).
    + right. exists wr, (Json (Records old)). split; [exact Hf|].
      split; [apply holds_inv; eauto | now left].
    + right. exists wr, Not_json. split; [exact Hf|].
      split; [apply holds_inv; eauto | now right].
    + left. now split.
  - intros [= <- <-]. split; [reflexivity|]. split; [reflexivity|].
    exists ∅. simpl. rewrite lookup_insert_eq. split; [reflexivity|].
    split; [reflexivity|]. left. split; [apply lookup_empty | reflexivity].
Qed.

(** C6, amended.  When the store lets the submission through, the record
    that [record_quiz_result] stores has as [completion_time], when both
    times are datetimes, the float nearest to [end_time - start_time] in
    seconds: a double such that no double is nearer to the exact duration,
    which differs from it by at most the duration times [2^-53], is the
    duration itself when that is a whole number of seconds, and is [>= 0]
    exactly when [end_time] is not earlier than [start_time].  When one of
    the two is not a datetime the [completion_time] is the int [0]. *)
Theorem record_quiz_result_completion_time (w w1 : world) (old : list Entry.t) :
  load_results w = (w1, Ok (Records old)) ->
  can_write w ->
  exists (w' : world) (new : Entry.t),
    submit w = (w', Ok tt)
    /\ load_results w' = (w', Ok (Records (old ++ [new])))
    /\ (forall start_us end_us : Z,
          start_time = Datetime start_us -> end_time = Datetime end_us ->
          exists t : Q,
            Entry.completion_time new = Some (Float t)
            /\ double t
            /\ (forall d : Q,
                  double d ->
                  (Qabs (t - inject_Z (end_us - start_us) / inject_Z 1000000)
                   <= Qabs (d - inject_Z (end_us - start_us) / inject_Z 1000000))%Q)
            /\ (Qabs (t - inject_Z (end_us - start_us) / inject_Z 1000000)
                <= Qabs (inject_Z (end_us - start_us) / inject_Z 1000000) * 2 ^ (-53))%Q
            /\ (forall s : Z,
                  end_us - start_us = 1000000 * s -> Z.abs s < 2 ^ 53 ->
                  (t == inject_Z s)%Q)
            /\ ((0 <= t)%Q <-> start_us <= end_us))
    /\ (start_time = NotDatetime \/ end_time = NotDatetime ->
        Entry.completion_time new = Some (Int 0)).
Proof.
  intros Hload [Hfault Hwr]. rewrite record_quiz_result_run, Hload.
  destruct (load_results_records w w1 old Hload)
    as (Hclock & Hio & inside & Hd & Hfs & Hfile).
  rewrite (save_results_run _ _ inside Hd), Hio, Hfault.
  assert (Ht : exists wr, truncated (inside !! "leaderboard_results.json")
                          = Ok (File true wr Not_json)).
  { destruct Hfile as [[-> _] | (wr & c & -> & Hh & _)]; simpl; [eauto|].
    destruct wr; [eauto|]. now destruct (Hwr true c). }
  destruct Ht as [wr ->].
  eexists. eexists. split; [reflexivity|]. split.
  - rewrite load_results_run. simpl. rewrite lookup_insert_eq, lookup_insert_eq. reflexivity.
  - simpl. split.
    + intros start_us end_us -> ->.
      exists (num_val (total_seconds end_us start_us)).
      split; [reflexivity|].
      split; [apply total_seconds_nearest|].
      split; [apply total_seconds_nearest|].
      split; [apply total_seconds_near|].
      split; [apply total_seconds_whole | apply total_seconds_sign].
    + intros [-> | ->]; [reflexivity|]. now destruct start_time.
Qed.

(** C5, amended.  The rewrite is done in place and is not atomic: when the
    results file holds a list and the device fails during the write,
    [record_quiz_result] raises [OSError] and leaves in the file a text that
    is not JSON, so that the old records are gone and the next load returns
    the empty list.  No failure is swallowed: the call returns normally only
    when the file then holds the old records followed by the new one, and a
    failure other than this [OSError] leaves the world as it was. *)
Theorem record_quiz_result_write_failure (w : world) :
  (forall old : list Entry.t,
     holds w true true (Json (Records old)) -> io_fault w = true ->
     exists w' : world,
       submit w = (w', Raise OSError)
       /\ holds w' true true Not_json
       /\ load_results w' = (w', Ok (Records [])))
  /\ (forall w' : world,
        submit w = (w', Ok tt) ->
        exists (w1 : world) (old : list Entry.t) (new : Entry.t),
          load_results w = (w1, Ok (Records old))
          /\ load_results w' = (w', Ok (Records (old ++ [new]))))
  /\ (forall (w' : world) (e : exn),
        submit w = (w', Raise e) -> e <> OSError -> w' = w).
Proof.
  split; [|split].
  - intros old Hh Hfault.
    pose proof Hh as (inside & Hd & Hf)%holds_inv.
    rewrite record_quiz_result_run, load_results_run, Hd, Hf.
    rewrite (save_results_run _ _ inside Hd), Hf, Hfault. simpl.
    eexists. split; [reflexivity|]. split.
    + apply holds_inv. simpl. rewrite lookup_insert_eq. eexists. split; [reflexivity|].
      apply lookup_insert_eq.
    + rewrite load_results_run. simpl. now rewrite !lookup_insert_eq.
  - intros w' Hrun. rewrite record_quiz_result_run in Hrun.
    destruct (load_results w) as [w1 [[old | | |] | e]] eqn:Hload; try discriminate.
    destruct (load_results_records w w1 old Hload) as (_ & _ & inside & Hd & _ & Hfile).
    rewrite (save_results_run _ _ inside Hd) in Hrun.
    exists w1, old. eexists. split; [reflexivity|].
    destruct (truncated (inside !! "leaderboard_results.json")) as [[r wr c | sub] | e] eqn:Ht;
      try discriminate.
    assert (r = true) as ->.
    { destruct Hfile as [[Hf _] | (wr' & c' & Hf & _)]; rewrite Hf in Ht; simpl in Ht.
      - now injection Ht as <- _ _.
      - destruct wr'; [now injection Ht as <- _ _ | discriminate]. }
    destruct (io_fault w1); [discriminate|]. injection Hrun as <-.
    rewrite load_results_run. simpl. now rewrite !lookup_insert_eq.
  - intros w' e Hrun He. rewrite record_quiz_result_run, load_results_run in Hrun.
    destruct (files w !! "data") as [[r wr c | inside]|] eqn:Hd.
    + now injection Hrun as <- _.
    + destruct (inside !! "leaderboard_results.json") as [[[] wr [[old | | |]| |] | sub]|]
        eqn:Hf; try (now injection Hrun as <- _);
        rewrite (save_results_run _ _ inside Hd), Hf in Hrun; simpl in Hrun;
        repeat match type of Hrun with
          | context [if ?b then _ else _] => destruct b
          end;
        try discriminate; try (now injection Hrun as <- _);
        injection Hrun as _ <-; now destruct He.
    + erewrite save_results_run in Hrun by (simpl; apply lookup_insert_eq).
      rewrite lookup_empty in Hrun. simpl in Hrun.
      destruct (io_fault w); [|discriminate]. injection Hrun as _ <-. now destruct He.
Qed.
End Submission.

(** A submission of thirty seconds, into the sample data. *)
Lemma record_quiz_result_completion_time_witness :
  exists (w' : world) (new : Entry.t),
    sample_submission sample_world = (w', Ok tt)
    /\ load_results w' = (w', Ok (Records (sample_results ++ [new])))
    /\ (forall start_us end_us : Z,
          Datetime 0 = Datetime start_us -> Datetime 30000000 = Datetime end_us ->
          exists t : Q,
            Entry.completion_time new = Some (Float t)
            /\ double t
            /\ (forall d : Q,
                  double d ->
                  (Qabs (t - inject_Z (end_us - start_us) / inject_Z 1000000)
                   <= Qabs (d - inject_Z (end_us - start_us) / inject_Z 1000000))%Q)
            /\ (Qabs (t - inject_Z (end_us - start_us) / inject_Z 1000000)
                <= Qabs (inject_Z (end_us - start_us) / inject_Z 1000000) * 2 ^ (-53))%Q
            /\ (forall s : Z,
                  end_us - start_us = 1000000 * s -> Z.abs s < 2 ^ 53 ->
                  (t == inject_Z s)%Q)
            /\ ((0 <= t)%Q <-> start_us <= end_us))
    /\ (Datetime 0 = NotDatetime \/ Datetime 30000000 = NotDatetime ->
        Entry.completion_time new = Some (Int 0)).
Proof.
  apply (record_quiz_result_completion_time (IdStr "Q1") (IdInt 7) "E" (Int 5) 5 10
           (Datetime 0) (Datetime 30000000) sample_world sample_world sample_results).
  - reflexivity.
  - split; [reflexivity|]. intros r c H. vm_compute in H. discriminate H.
Defined.

(** C6 as stated fails: with [end_time] fifty seconds before [start_time] the
    stored [completion_time] is negative. *)
Lemma record_quiz_result_negative_time :
  exists (w' : world) (new : Entry.t) (t : num),
    backwards_submission sample_world = (w', Ok tt)
    /\ load_results w' = (w', Ok (Records (sample_results ++ [new])))
    /\ Entry.completion_time new = Some t
    /\ (num_val t == -50)%Q
    /\ (num_val t < 0)%Q.
Proof.
  exists (fst (backwards_submission sample_world)).
  exists {| Entry.quiz_id := Some "Q1";
            Entry.user_id := Some "7";
            Entry.user_name := Some "E";
            Entry.score := Some (Int 5);
            Entry.correct_answers := Some 5;
            Entry.total_questions := Some 10;
            Entry.completion_time := Some (total_seconds 0 50000000);
            Entry.timestamp := Some "2024-01-01T00:00:00" |}.
  exists (total_seconds 0 50000000).
  repeat split; vm_compute; reflexivity.
Qed.

(** A tenth of a second is stored as the double nearest to it, which is not
    a tenth. *)
Example total_seconds_tenth :
  (num_val (total_seconds 100000 0) == 3602879701896397 # 36028797018963968)%Q
  /\ ~ (num_val (total_seconds 100000 0) == 1 # 10)%Q.
Proof. split; vm_compute; congruence. Qed.

(** The device fails while a record is added to the sample data. *)
Lemma record_quiz_result_write_failure_witness :
  exists w' : world,
    sample_submission faulty_world = (w', Raise OSError)
    /\ holds w' true true Not_json
    /\ load_results w' = (w', Ok (Records [])).
Proof.
  apply (proj1 (record_quiz_result_write_failure (IdStr "Q1") (IdInt 7) "E" (Int 5) 5 10
                  (Datetime 0) (Datetime 30000000) faulty_world) sample_results);
    reflexivity.
Defined.

(** C5 as stated fails: after the failed write the four records that were
    stored are gone, and the world is not what it was. *)
Lemma record_quiz_result_loses_content :
  snd (load_results faulty_world) = Ok (Records sample_results)
  /\ snd (sample_submission faulty_world) = Raise OSError
  /\ snd (load_results (fst (sample_submission faulty_world))) = Ok (Records [])
  /\ fst (sample_submission faulty_world) <> faulty_world.
Proof.
  repeat split; try (vm_compute; reflexivity).
  intros E. 
  assert (H : snd (load_results (fst (sample_submission faulty_world)))
              = snd (load_results faulty_world)) by now rewrite E.
  vm_compute in H. discriminate H.
Qed.

(** ** Reporter *)

Lemma string_app_assoc (a b c : string) : (a ++ b) ++ c = a ++ b ++ c.
Proof.
  induction a as [|x a IH]; [reflexivity|].
  change (String x ((a ++ b) ++ c) = String x (a ++ b ++ c)). now rewrite IH.
Qed.

Lemma string_app_nil_r (a : string) : a ++ "" = a.
Proof.
  induction a as [|x a IH]; [reflexivity|].
  change (String x (a ++ "") = String x a). now rewrite IH.
Qed.

Lemma concat_cons (x : string) (l : list string) :
  String.concat "" (x :: l) = x ++ String.concat "" l.
Proof. destruct l; simpl; [now rewrite string_app_nil_r | reflexivity]. Qed.

(** The loop as a whole: the texts of the entries, one after the other. *)
Lemma add_ranking_concat (total_questions : Z) (leaderboard : list Entry.t) :
  forall (message : string) (i : Z),
    add_ranking total_questions message i leaderboard
    = message ++ String.concat ""
        (imap (fun k entry => entry_text total_questions (Z.of_nat k + i) entry) leaderboard).
Proof.
  induction leaderboard as [|entry rest IH]; intros message i.
  - simpl. now rewrite string_app_nil_r.
  - cbn [add_ranking]. rewrite IH, imap_cons, concat_cons, string_app_assoc.
    do 3 f_equal. apply imap_ext. intros k e _. simpl. f_equal. lia.
Qed.

Lemma entry_text_line_of (denominator : Z) (k : nat) (entry : Entry.t) :
  entry_text denominator (Z.of_nat k + 1) entry = line_of denominator k entry.
Proof.
  unfold entry_text, line_of, dict_get, default. cbv zeta.
  destruct k as [|[|[|k]]]; try reflexivity.
  replace (Z.of_nat (S (S (S k))) + 1 =? 1) with false by (symmetry; apply Z.eqb_neq; lia).
  replace (Z.of_nat (S (S (S k))) + 1 =? 2) with false by (symmetry; apply Z.eqb_neq; lia).
  replace (Z.of_nat (S (S (S k))) + 1 =? 3) with false by (symmetry; apply Z.eqb_neq; lia).
  reflexivity.
Qed.

Lemma generate_leaderboard_message_report (w w1 : world) (quiz_id : option pyid)
    (quiz_title : option string) (first : Entry.t) (rest : list Entry.t) :
  get_leaderboard quiz_id default_limit w = (w1, Ok (first :: rest)) ->
  generate_leaderboard_message quiz_id quiz_title w
  = (w1, Ok (report_with (title_of quiz_id quiz_title)
               (default 0 (Entry.total_questions first)) (first :: rest))).
Proof.
  intros Hview. unfold generate_leaderboard_message, bind. rewrite Hview.
  cbv beta iota zeta. unfold ret. rewrite add_ranking_concat. unfold report_with.
  assert (E : imap (fun k entry =>
                      entry_text (dict_get (Entry.total_questions first) 0)
                        (Z.of_nat k + 1) entry) (first :: rest)
              = imap (line_of (default 0 (Entry.total_questions first))) (first :: rest)).
  { apply imap_ext. intros k e _. simpl. apply entry_text_line_of. }
  rewrite E, !string_app_assoc. reflexivity.
Qed.

(** C7.  For a view that is not empty, the message is the header, then for
    the entry at each rank its lines with, after the slash of
    ["(<correct>/<total> correct)"], the number stored as [total_questions]
    in the first entry of the view ([0] when that entry has no such field),
    whatever the entry's own [total_questions], then the footer. *)
Theorem generate_leaderboard_message_denominator (w w1 : world)
    (quiz_id : option pyid) (quiz_title : option string) (first : Entry.t)
    (rest : list Entry.t) :
  get_leaderboard quiz_id default_limit w = (w1, Ok (first :: rest)) ->
  (forall n : Z,
     Entry.total_questions first = Some n ->
     generate_leaderboard_message quiz_id quiz_title w
     = (w1, Ok (report_with (title_of quiz_id quiz_title) n (first :: rest))))
  /\ (Entry.total_questions first = None ->
      generate_leaderboard_message quiz_id quiz_title w
      = (w1, Ok (report_with (title_of quiz_id quiz_title) 0 (first :: rest)))).
Proof.
  intros Hview.
  rewrite (generate_leaderboard_message_report _ _ _ quiz_title _ _ Hview).
  split; [intros n Hn | intros Hn]; now rewrite Hn.
Qed.

(** The view over all quizzes of the sample data: the first entry has 10
    questions, the second 20. *)
Lemma generate_leaderboard_message_denominator_witness :
  (forall n : Z,
     Entry.total_questions sample_C = Some n ->
     generate_leaderboard_message None None sample_world
     = (sample_world,
        Ok (report_with (title_of None None) n [sample_C; sample_D; sample_B; sample_A])))
  /\ (Entry.total_questions sample_C = None ->
      generate_leaderboard_message None None sample_world
      = (sample_world,
         Ok (report_with (title_of None None) 0 [sample_C; sample_D; sample_B; sample_A]))).
Proof.
  apply (generate_leaderboard_message_denominator sample_world sample_world None None
           sample_C [sample_D; sample_B; sample_A]).
  reflexivity.
Defined.

(** The message over the sample data: the 17 answers of D, out of 20
    questions, are printed over the 10 questions of the first entry. *)
Example mixed_view_message :
  Entry.total_questions sample_C = Some 10
  /\ Entry.correct_answers sample_D = Some 17
  /\ Entry.total_questions sample_D = Some 20
  /\ snd (generate_leaderboard_message None None sample_world)
     = Ok
         "ðŸ“Š *Leaderboard: All Quizzes* ðŸ“Š

ðŸ¥‡ *1. C*
   Score: 9  (9/10 correct)
   Time: 1m 0s

ðŸ¥ˆ *2. D*
   Score: 8.5  (17/10 correct)
   Time: 0m 0s

ðŸ¥‰ *3. B*
   Score: 8  (8/10 correct)
   Time: 0m 40s

*4. A*
   Score: 8  (8/10 correct)
   Time: 0m 50s

Use /play to start a new quiz!".
Proof. repeat split. Qed.

(** * Further properties *)

(** ** Store *)

(** A second load finds what the first left and changes nothing. *)
Lemma load_results_again (w : world) :
  load_results (fst (load_results w)) = load_results w.
Proof.
  rewrite (load_results_run w).
  destruct (files w !! "data") as [[r wr c | inside]|] eqn:Hd; simpl.
  - now rewrite load_results_run, Hd.
  - destruct (inside !! "leaderboard_results.json") as [[[] wr [doc| |] | sub]|] eqn:Hf;
      simpl; now rewrite load_results_run, Hd, Hf.
  - rewrite load_results_run. simpl. now rewrite lookup_insert_eq, lookup_empty.
Qed.

(** X1.  Two loads in a row return the same outcome, and the second one changes
    nothing (the first may have made the directory [data]). *)
Theorem load_results_idempotent (w w1 : world) (outcome : res document) :
  load_results w = (w1, outcome) ->
  load_results w1 = (w1, outcome).
Proof.
  intros H. pose proof (load_results_again w) as Hagain.
  rewrite H in Hagain. exact Hagain.
Qed.

Lemma load_results_idempotent_witness :
  load_results (fst (load_results empty_world))
  = (fst (load_results empty_world), Ok (Records [])).
Proof.
  apply (load_results_idempotent empty_world (fst (load_results empty_world))
           (Ok (Records []))).
  reflexivity.
Defined.

Lemma usable_store_data (w : world) :
  usable_store w ->
  exists (w1 : world) (inside : gmap string node),
    os_makedirs "data" w = (w1, Ok tt)
    /\ files w1 !! "data" = Some (Dir inside)
    /\ files w1 = <["data" := Dir inside]> (files w)
    /\ clock w1 = clock w /\ io_fault w1 = false
    /\ (inside !! "leaderboard_results.json" = None
        \/ exists c, inside !! "leaderboard_results.json" = Some (File true true c)).
Proof.
  intros [Hio [Hd | (inside & Hd & Hf)]]; rewrite os_makedirs_data, Hd.
  - exists (set_files w (<["data" := Dir ∅]> (files w))), ∅. simpl.
    rewrite lookup_insert_eq. split; [reflexivity|]. split; [reflexivity|].
    split; [reflexivity|]. split; [reflexivity|]. split; [exact Hio|].
    left. apply lookup_empty.
  - exists w, inside. split; [reflexivity|]. split; [exact Hd|].
    split; [now rewrite insert_id|]. split; [reflexivity|]. split; [exact Hio|]. exact Hf.
Qed.

(** Saving starts by making the directory: it may as well be there. *)
Lemma save_results_after_makedirs (w w1 : world) (results : list Entry.t) :
  os_makedirs "data" w = (w1, Ok tt) ->
  save_results results w = save_results results w1.
Proof.
  intros Hmk. unfold save_results, bind. rewrite dirname_RESULTS_FILE, Hmk.
  assert (H1 : os_makedirs "data" w1 = (w1, Ok tt)).
  { rewrite os_makedirs_data in Hmk. rewrite os_makedirs_data.
    destruct (files w !! "data") as [[r wr c | inside]|] eqn:Hd.
    - discriminate.
    - injection Hmk as <-. now rewrite Hd.
    - injection Hmk as <-. simpl. now rewrite lookup_insert_eq. }
  now rewrite H1.
Qed.

(** X2.  In a usable store, [save_results] followed by [load_results] returns
    exactly the list that was saved, whatever the file held before (the file
    and the directory are made when missing); the store stays usable and no
    other name of the working directory is touched. *)
Theorem save_results_round_trip (w : world) (results : list Entry.t) :
  usable_store w ->
  exists w' : world,
    save_results results w = (w', Ok tt)
    /\ load_results w' = (w', Ok (Records results))
    /\ usable_store w'
    /\ (forall name : string, name <> "data" -> files w' !! name = files w !! name).
Proof.
  intros Hu.
  destruct (usable_store_data w Hu) as (w1 & inside & Hmk & Hd & Hfs & Hclk & Hio & Hf).
  rewrite (save_results_after_makedirs w w1 results Hmk), (save_results_run w1 results inside Hd).
  assert (Ht : truncated (inside !! "leaderboard_results.json") = Ok (File true true Not_json)).
  { destruct Hf as [-> | [c ->]]; reflexivity. }
  rewrite Ht, Hio.
  eexists. split; [reflexivity|]. split; [|split].
  - rewrite load_results_run. simpl. now rewrite !lookup_insert_eq.
  - split; [exact Hio|]. right. simpl. eexists. rewrite lookup_insert_eq.
    split; [reflexivity|]. right. eexists. apply lookup_insert_eq.
  - intros name Hn. simpl. rewrite lookup_insert_ne by congruence.
    rewrite Hfs. now rewrite lookup_insert_ne by congruence.
Qed.

(** One submission into a store that lets it through. *)
Lemma record_stored (s : submission) (w w1 : world) (old : list Entry.t) :
  load_results w = (w1, Ok (Records old)) ->
  can_write w ->
  exists w' : world,
    record s w = (w', Ok tt)
    /\ load_results w' = (w', Ok (Records (old ++ [stored_entry s (clock w)])))
    /\ can_write w'
    /\ clock w' = clock w.
Proof.
  intros Hload [Hfault Hwr]. unfold record. rewrite record_quiz_result_run, Hload.
  destruct (load_results_records w w1 old Hload)
    as (Hclock & Hio & inside & Hd & Hfs & Hfile).
  rewrite (save_results_run _ _ inside Hd), Hio, Hfault.
  assert (Ht : truncated (inside !! "leaderboard_results.json")
               = Ok (File true true Not_json)).
  { destruct Hfile as [[-> _] | (wr & c & -> & Hh & _)]; simpl; [reflexivity|].
    destruct wr; [reflexivity|]. now destruct (Hwr true c). }
  rewrite Ht, Hclock. eexists. split; [reflexivity|]. split; [|split].
  - rewrite load_results_run. simpl. now rewrite !lookup_insert_eq.
  - split; [simpl; congruence|]. intros r c (inside' & Hd' & Hf')%holds_inv.
    simpl in Hd'. rewrite lookup_insert_eq in Hd'. injection Hd' as <-.
    rewrite lookup_insert_eq in Hf'. discriminate.
  - simpl. exact Hclock.
Qed.

(** A load does not look at the clock. *)
Lemma load_results_at_time (now : string) (w w1 : world) (old : list Entry.t) :
  load_results w = (w1, Ok (Records old)) ->
  exists w2 : world,
    load_results (fst (at_time now w)) = (w2, Ok (Records old)).
Proof.
  rewrite !load_results_run. simpl.
  destruct (files w !! "data") as [[r wr c | inside]|].
  - discriminate.
  - destruct (inside !! "leaderboard_results.json") as [[[] wr [doc| |] | sub]|];
      intros [= <- <-] || discriminate; eauto.
  - intros [= <- <-]. eauto.
Qed.

(** X3.  Submissions made one after the other, each at its own time, into a
    store that lets them through all succeed, and a load then returns the
    records that were there followed by the entries of the submissions, in
    the order of the calls, each with the reading of the clock at its call
    as timestamp. *)
Theorem record_all_round_trip (calls : list (string * submission)) (w w1 : world)
    (old : list Entry.t) :
  load_results w = (w1, Ok (Records old)) ->
  can_write w ->
  exists w' : world,
    record_all calls w = (w', Ok tt)
    /\ snd (load_results w')
       = Ok (Records (old ++ map (fun call => stored_entry (snd call) (fst call)) calls)).
Proof.
  revert w w1 old. induction calls as [|[now s] calls IH]; intros w w1 old Hload Hcw.
  - exists w. split; [reflexivity|]. simpl. now rewrite Hload, app_nil_r.
  - destruct (load_results_at_time now w w1 old Hload) as [w1' Hload'].
    assert (Hcw' : can_write (fst (at_time now w))) by exact Hcw.
    destruct (record_stored s _ w1' old Hload' Hcw') as (w2 & Hrec & Hload2 & Hcw2 & Hclk).
    destruct (IH w2 w2 _ Hload2 Hcw2) as (w' & Hall & Hfinal).
    exists w'. split.
    + simpl. unfold bind at 1. simpl. unfold bind at 1. simpl in Hrec. now rewrite Hrec.
    + rewrite Hfinal. simpl. now rewrite <- app_assoc.
Qed.

(** Two submissions five minutes apart, into an empty working directory. *)
Lemma record_all_round_trip_witness :
  exists w' : world,
    record_all [("2024-01-01T10:00:00", submission_E); ("2024-01-01T10:05:00", submission_F)]
      empty_world = (w', Ok tt)
    /\ snd (load_results w')
       = Ok (Records ([] ++ map (fun call => stored_entry (snd call) (fst call))
                              [("2024-01-01T10:00:00", submission_E);
                               ("2024-01-01T10:05:00", submission_F)])).
Proof.
  apply (record_all_round_trip
           [("2024-01-01T10:00:00", submission_E); ("2024-01-01T10:05:00", submission_F)]
           empty_world (fst (load_results empty_world)) []).
  - reflexivity.
  - split; [reflexivity|]. intros r c H. vm_compute in H. discriminate H.
Defined.

Lemma save_results_round_trip_witness :
  exists w' : world,
    save_results sample_results empty_world = (w', Ok tt)
    /\ load_results w' = (w', Ok (Records sample_results))
    /\ usable_store w'
    /\ (forall name : string, name <> "data" -> files w' !! name = files empty_world !! name).
Proof.
  apply (save_results_round_trip empty_world sample_results).
  split; [reflexivity|]. left. reflexivity.
Defined.

(** The worlds that a submission can end in. *)
Lemma record_outcomes (s : submission) (w : world) :
  fst (record s w) = w
  \/ exists (inside : gmap string node) (n : node),
       (files w !! "data" = Some (Dir inside)
        \/ files w !! "data" = None /\ inside = ∅)
       /\ fst (record s w)
          = set_files w (<["data" := Dir (<["leaderboard_results.json" := n]> inside)]> (files w)).
Proof.
  unfold record. rewrite record_quiz_result_run, load_results_run.
  destruct (files w !! "data") as [[r wr c | inside]|] eqn:Hd.
  - now left.
  - assert (Hsave : forall results,
              fst (save_results results w) = w
              \/ exists n, fst (save_results results w)
                           = set_files w (<["data" := Dir (<["leaderboard_results.json" := n]> inside)]> (files w))).
    { intros results. rewrite (save_results_run w results inside Hd).
      destruct (truncated (inside !! "leaderboard_results.json")) as [[r wr c | sub] | e];
        [|now left|now left].
      right. destruct (io_fault w); eexists; reflexivity. }
    destruct (inside !! "leaderboard_results.json") as [[[] wr [[old | | |]| |] | sub]|];
      try (now left);
      (destruct (Hsave (old ++ [stored_entry s (clock w)])%list) as [H | [n H]]
       || destruct (Hsave [stored_entry s (clock w)]) as [H | [n H]]);
      try (left; exact H); right; exists inside, n; (split; [now left | exact H]).
  - right.
    set (w1 := set_files w (<["data" := Dir ∅]> (files w))).
    assert (Hd1 : files w1 !! "data" = Some (Dir ∅)) by apply lookup_insert_eq.
    rewrite (save_results_run w1 _ ∅ Hd1), lookup_empty. simpl.
    exists ∅. destruct (io_fault w); eexists; (split; [now right|]); simpl;
      unfold set_files; simpl; now rewrite insert_insert_eq.
Qed.

(** X4.  Whatever its outcome, [record_quiz_result] leaves the clock and the
    device alone, touches no name of the working directory other than [data],
    and inside an existing directory [data] no name other than the results
    file; when [data] is a file nothing changes at all. *)
Theorem record_quiz_result_frame (quiz_id user_id : pyid) (user_name : string)
    (score : num) (correct_answers total_questions : Z) (start_time end_time : pytime)
    (w : world) :
  let w' := fst (record_quiz_result quiz_id user_id user_name score correct_answers
                   total_questions start_time end_time w) in
  clock w' = clock w
  /\ io_fault w' = io_fault w
  /\ (forall name : string, name <> "data" -> files w' !! name = files w !! name)
  /\ (forall inside : gmap string node,
        files w !! "data" = Some (Dir inside) ->
        exists inside' : gmap string node,
          files w' !! "data" = Some (Dir inside')
          /\ forall name : string,
               name <> "leaderboard_results.json" -> inside' !! name = inside !! name)
  /\ (forall (r wr : bool) (c : content),
        files w !! "data" = Some (File r wr c) -> w' = w).
Proof.
  intros w'.
  pose proof (record_outcomes
                (mk_submission quiz_id user_id user_name score correct_answers
                   total_questions start_time end_time) w) as H.
  change (fst (record _ w)) with w' in H.
  destruct H as [-> | (inside0 & n & Hd0 & ->)].
  - repeat split; eauto.
  - split; [reflexivity|]. split; [reflexivity|]. split; [|split].
    + intros name Hn. simpl. now rewrite lookup_insert_ne by congruence.
    + intros inside Hd. simpl. rewrite lookup_insert_eq. eexists. split; [reflexivity|].
      intros name Hn. rewrite lookup_insert_ne by congruence.
      destruct Hd0 as [Hd0 | [Hd0 _]]; congruence.
    + intros r wr c Hd. destruct Hd0 as [Hd0 | [Hd0 _]]; congruence.
Qed.

(** ** Ranker *)

Lemma StronglySorted_app_In {A : Type} (R : A -> A -> Prop) (l1 l2 : list A) (a b : A) :
  StronglySorted R (l1 ++ l2) -> In a l1 -> In b l2 -> R a b.
Proof.
  induction l1 as [|x l1 IH]; simpl; intros Hs Ha Hb; [contradiction|].
  apply StronglySorted_inv in Hs as [Hs Hall]. destruct Ha as [-> | Ha].
  - rewrite List.Forall_forall in Hall. apply Hall, in_or_app. now right.
  - now apply IH.
Qed.

(** The whole ranking of the records of a query, before the cut. *)
Lemma ranking_StronglySorted (l : list Entry.t) :
  StronglySorted (key_le tuple_ltb sort_key) (sorted tuple_ltb sort_key l).
Proof. apply sorted_StronglySorted; [exact tuple_ltb_asym | exact tuple_le_trans]. Qed.

Lemma ranked_before_score (a b : Entry.t) : ranked_before a b -> (score_of b <= score_of a)%Q.
Proof. intros [H | [H _]]; lra. Qed.

(** X6.  The view and the records that the limit cuts off are together a
    rearrangement of the stored records that match the filter (nothing is
    invented, lost or repeated), and every record of the view ranks before
    every record cut off. *)
Theorem get_leaderboard_top (w w1 : world) (results : list Entry.t)
    (quiz_id : option pyid) (limit : Z) :
  load_results w = (w1, Ok (Records results)) ->
  exists view cut : list Entry.t,
    get_leaderboard quiz_id limit w = (w1, Ok view)
    /\ Permutation (view ++ cut) (matching quiz_id results)
    /\ (forall a b : Entry.t, In a view -> In b cut -> ranked_before a b).
Proof.
  intros Hload. rewrite (get_leaderboard_loaded _ _ _ _ _ Hload).
  set (ranking := sorted tuple_ltb sort_key (matching quiz_id results)).
  destruct (py_slice_to_take ranking limit) as [n ->].
  exists (take n ranking), (drop n ranking). split; [reflexivity|]. split.
  - rewrite take_drop. symmetry. apply sorted_perm.
  - intros a b Ha Hb. apply key_le_ranked.
    apply (StronglySorted_app_In _ (take n ranking) (drop n ranking)); auto.
    rewrite take_drop. apply ranking_StronglySorted.
Qed.

Lemma get_leaderboard_top_witness :
  exists view cut : list Entry.t,
    get_leaderboard None 2 sample_world = (sample_world, Ok view)
    /\ Permutation (view ++ cut) (matching None sample_results)
    /\ (forall a b : Entry.t, In a view -> In b cut -> ranked_before a b).
Proof.
  apply (get_leaderboard_top sample_world sample_world sample_results). reflexivity.
Defined.

(** X7.  The first entry of a view is a stored record matching the filter with
    the highest score of all of them, and among those with that score none is
    faster. *)
Theorem get_leaderboard_leader (w w1 : world) (results : list Entry.t)
    (quiz_id : option pyid) (limit : Z) (first : Entry.t) (others : list Entry.t) :
  load_results w = (w1, Ok (Records results)) ->
  get_leaderboard quiz_id limit w = (w1, Ok (first :: others)) ->
  In first (matching quiz_id results)
  /\ forall r : Entry.t,
       In r (matching quiz_id results) ->
       (score_of r <= score_of first)%Q
       /\ ((score_of r == score_of first)%Q -> time_le first r).
Proof.
  intros Hload Hview. rewrite (get_leaderboard_loaded _ _ _ _ _ Hload) in Hview.
  injection Hview as Hview.
  set (ranking := sorted tuple_ltb sort_key (matching quiz_id results)) in *.
  destruct (py_slice_to_take ranking limit) as [n Hn]. rewrite Hn in Hview.
  assert (Hperm : Permutation (matching quiz_id results) ranking) by apply sorted_perm.
  pose proof (ranking_StronglySorted (matching quiz_id results)) as Hs. fold ranking in Hs.
  destruct ranking as [|x tail]; [now destruct n|].
  destruct n as [|n]; [discriminate|]. simpl in Hview. injection Hview as -> _.
  split; [apply (Permutation_in _ (Permutation_sym Hperm)); now left|].
  intros r Hr. apply (Permutation_in _ Hperm) in Hr.
  apply StronglySorted_inv in Hs as [_ Hall]. rewrite List.Forall_forall in Hall.
  assert (Hrb : r = first \/ ranked_before first r).
  { destruct Hr as [-> | Hr]; [now left | right; now apply key_le_ranked, Hall]. }
  destruct Hrb as [-> | Hrb].
  - split; [apply Qle_refl|]. intros _. unfold time_le.
    destruct (time_of first); [apply Qle_refl | exact I].
  - split; [now apply ranked_before_score|].
    intros Heq. destruct Hrb as [Hlt | [_ Ht]]; [lra | exact Ht].
Qed.

Lemma get_leaderboard_leader_witness :
  In sample_C (matching None sample_results)
  /\ forall r : Entry.t,
       In r (matching None sample_results) ->
       (score_of r <= score_of sample_C)%Q
       /\ ((score_of r == score_of sample_C)%Q -> time_le sample_C r).
Proof.
  apply (get_leaderboard_leader sample_world sample_world sample_results None 15
           sample_C [sample_D; sample_B; sample_A]); reflexivity.
Defined.

(** X8.  The length of a view, for any limit: [min(limit, n)] when the limit is
    not negative, and [max(0, n + limit)] when it is, [n] being the number of
    stored records that match the filter. *)
Theorem get_leaderboard_length_any_limit (w w1 : world) (results : list Entry.t)
    (quiz_id : option pyid) (limit : Z) :
  load_results w = (w1, Ok (Records results)) ->
  exists view : list Entry.t,
    get_leaderboard quiz_id limit w = (w1, Ok view)
    /\ Z.of_nat (length view)
       = if limit <? 0
         then Z.max 0 (Z.of_nat (length (matching quiz_id results)) + limit)
         else Z.min limit (Z.of_nat (length (matching quiz_id results))).
Proof.
  intros Hload. rewrite (get_leaderboard_loaded _ _ _ _ _ Hload).
  eexists. split; [reflexivity|]. unfold py_slice_to.
  destruct (Z.ltb_spec limit 0); rewrite length_take, sorted_length; lia.
Qed.

Lemma get_leaderboard_length_any_limit_witness :
  exists view : list Entry.t,
    get_leaderboard (Some (IdStr "Q1")) (-2) sample_world = (sample_world, Ok view)
    /\ Z.of_nat (length view)
       = if -2 <? 0
         then Z.max 0 (Z.of_nat (length (matching (Some (IdStr "Q1")) sample_results)) + -2)
         else Z.min (-2) (Z.of_nat (length (matching (Some (IdStr "Q1")) sample_results))).
Proof.
  apply (get_leaderboard_length_any_limit sample_world sample_world sample_results).
  reflexivity.
Defined.

(** X9.  For limits that are not negative, a larger limit only adds entries at
    the end: the view for the smaller limit is a prefix of the other. *)
Theorem get_leaderboard_limit_monotone (w w1 : world) (results : list Entry.t)
    (quiz_id : option pyid) (limit limit' : Z) :
  load_results w = (w1, Ok (Records results)) ->
  0 <= limit <= limit' ->
  exists view view' : list Entry.t,
    get_leaderboard quiz_id limit w = (w1, Ok view)
    /\ get_leaderboard quiz_id limit' w = (w1, Ok view')
    /\ view `prefix_of` view'.
Proof.
  intros Hload Hl. rewrite !(get_leaderboard_loaded _ _ _ _ _ Hload).
  do 2 eexists. split; [reflexivity|]. split; [reflexivity|].
  rewrite !py_slice_to_nonneg by lia.
  replace (Z.to_nat limit) with (Z.to_nat limit `min` Z.to_nat limit')%nat by lia.
  rewrite <- take_take. apply prefix_take.
Qed.

Lemma get_leaderboard_limit_monotone_witness :
  exists view view' : list Entry.t,
    get_leaderboard None 1 sample_world = (sample_world, Ok view)
    /\ get_leaderboard None 3 sample_world = (sample_world, Ok view')
    /\ view `prefix_of` view'.
Proof.
  apply (get_leaderboard_limit_monotone sample_world sample_world sample_results);
    [reflexivity | lia].
Defined.

(** ** Queries and the store *)

Lemma get_leaderboard_world (w : world) (quiz_id : option pyid) (limit : Z) :
  fst (get_leaderboard quiz_id limit w) = fst (load_results w).
Proof.
  unfold get_leaderboard, bind.
  destruct (load_results w) as [w1 [[l | | |] | e]]; destruct quiz_id; reflexivity.
Qed.

Lemma generate_leaderboard_message_world (w : world) (quiz_id : option pyid)
    (quiz_title : option string) :
  fst (generate_leaderboard_message quiz_id quiz_title w) = fst (load_results w).
Proof.
  unfold generate_leaderboard_message, bind.
  rewrite <- (get_leaderboard_world w quiz_id default_limit).
  destruct (get_leaderboard quiz_id default_limit w) as [w1 [[|first rest] | e]]; reflexivity.
Qed.

(** X5.  A query changes the world only as a plain load does: after
    [get_leaderboard] or [generate_leaderboard_message] the world is the one
    [load_results] leaves, and a load returns what it returned before. *)
Theorem queries_read_only (w : world) (quiz_id : option pyid) (limit : Z)
    (quiz_title : option string) :
  fst (get_leaderboard quiz_id limit w) = fst (load_results w)
  /\ fst (generate_leaderboard_message quiz_id quiz_title w) = fst (load_results w)
  /\ load_results (fst (get_leaderboard quiz_id limit w)) = load_results w
  /\ load_results (fst (generate_leaderboard_message quiz_id quiz_title w)) = load_results w.
Proof.
  rewrite get_leaderboard_world, generate_leaderboard_message_world, load_results_again.
  repeat split.
Qed.

(** ** Reporter *)

Lemma no_results_message_differs (title rest : string) :
  ("ðŸ“Š *Leaderboard: " ++ title) ++ rest <> no_results_message.
Proof. unfold no_results_message. cbn. intros H. discriminate H. Qed.

Lemma header_differs (s : string) : "ðŸ“Š *Leaderboard: " ++ s <> no_results_message.
Proof. unfold no_results_message. cbn. intros H. discriminate H. Qed.

(** No record passes the filter: said of the fields of the stored records. *)
Lemma matching_nil (quiz_id : option pyid) (results : list Entry.t) :
  matching quiz_id results = []
  <-> forall r : Entry.t,
        In r results -> exists x : pyid, quiz_id = Some x /\ Entry.quiz_id r <> Some (py_str x).
Proof.
  destruct quiz_id as [x|]; simpl.
  - split.
    + intros Hnil r Hr. exists x. split; [reflexivity|]. intros Hq.
      assert (Hin : In r (List.filter (quiz_id_is (py_str x)) results)).
      { apply filter_In. split; [exact Hr|].
        rewrite quiz_id_is_field. now apply bool_decide_eq_true_2. }
      rewrite Hnil in Hin. destruct Hin.
    + intros H. destruct (List.filter (quiz_id_is (py_str x)) results) as [|r rs] eqn:E;
        [reflexivity|].
      assert (Hin : In r (List.filter (quiz_id_is (py_str x)) results)) by (rewrite E; now left).
      apply filter_In in Hin as [Hr Hq]. rewrite quiz_id_is_field in Hq.
      apply bool_decide_eq_true_1 in Hq.
      destruct (H r Hr) as (x' & [= <-] & Hne). now destruct Hne.
  - split.
    + intros -> r [].
    + intros H. destruct results as [|r rs]; [reflexivity|].
      destruct (H r (or_introl eq_refl)) as (x & Hx & _). discriminate Hx.
Qed.

(** The title of the header, case by case. *)
Lemma title_of_cases (quiz_id : option pyid) (quiz_title : option string) :
  (forall t : string, quiz_title = Some t -> t <> "" -> title_of quiz_id quiz_title = t)
  /\ (quiz_title = None \/ quiz_title = Some "" ->
      (forall z : Z, quiz_id = Some (IdInt z) -> z <> 0 ->
         title_of quiz_id quiz_title = "Quiz " ++ str_int z)
      /\ (forall t : string, quiz_id = Some (IdStr t) -> t <> "" ->
            title_of quiz_id quiz_title = "Quiz " ++ t)
      /\ (quiz_id = None \/ quiz_id = Some (IdInt 0) \/ quiz_id = Some (IdStr "") ->
          title_of quiz_id quiz_title = "All Quizzes")).
Proof.
  unfold title_of. split.
  - intros t -> Ht. simpl. destruct (String.eqb_spec t ""); [contradiction | reflexivity].
  - intros Ht.
    assert (E : truthy_str quiz_title = None) by (destruct Ht as [-> | ->]; reflexivity).
    rewrite E. split; [|split].
    + intros z -> Hz. simpl. destruct (Z.eqb_spec z 0); [contradiction | reflexivity].
    + intros t -> Hne. simpl. destruct (String.eqb_spec t ""); [contradiction | reflexivity].
    + intros [-> | [-> | ->]]; reflexivity.
Qed.

(** X10.  The report is the fixed no-results message exactly when no stored
    record passes the filter: with no filter, when nothing is stored, and
    with a filter [x], when no stored record has [str(x)] in its [quiz_id]
    field.  Otherwise the message starts with the header that carries the
    title: the given title when it is not empty, otherwise ["Quiz "] and the
    identifier when that is neither [0] nor empty, otherwise
    ["All Quizzes"]. *)
Theorem no_results_message_iff (w w1 : world) (results : list Entry.t)
    (quiz_id : option pyid) (quiz_title : option string) :
  load_results w = (w1, Ok (Records results)) ->
  exists message : string,
    generate_leaderboard_message quiz_id quiz_title w = (w1, Ok message)
    /\ (message = no_results_message
        <-> forall r : Entry.t,
              In r results ->
              exists x : pyid, quiz_id = Some x /\ Entry.quiz_id r <> Some (py_str x))
    /\ (message <> no_results_message ->
        exists title rest : string,
          message = "ðŸ“Š *Leaderboard: " ++ title ++ "* ðŸ“Š" ++ nl ++ nl ++ rest
          /\ (forall t : string, quiz_title = Some t -> t <> "" -> title = t)
          /\ (quiz_title = None \/ quiz_title = Some "" ->
              (forall z : Z, quiz_id = Some (IdInt z) -> z <> 0 ->
                 title = "Quiz " ++ str_int z)
              /\ (forall t : string, quiz_id = Some (IdStr t) -> t <> "" ->
                    title = "Quiz " ++ t)
              /\ (quiz_id = None \/ quiz_id = Some (IdInt 0) \/ quiz_id = Some (IdStr "") ->
                  title = "All Quizzes"))).
Proof.
  intros Hload. unfold generate_leaderboard_message, bind.
  rewrite (get_leaderboard_loaded _ _ _ _ _ Hload).
  rewrite py_slice_to_nonneg by (unfold default_limit; lia).
  pose proof (matching_nil quiz_id results) as Hnil.
  pose proof (sorted_length tuple_ltb sort_key (matching quiz_id results)) as Hlen.
  destruct (matching quiz_id results) as [|r rs] eqn:Hm.
  - simpl. eexists. split; [reflexivity|]. split.
    + split; [intros _; now apply Hnil | reflexivity].
    + intros H. now destruct H.
  - destruct (sorted tuple_ltb sort_key (r :: rs)) as [|first rest]; [discriminate|].
    cbn [take firstn Z.to_nat default_limit Pos.to_nat Pos.iter_op Nat.add].
    change (Z.to_nat default_limit) with 15%nat. cbn [take firstn].
    eexists. split; [reflexivity|]. split; [split|].
    + rewrite add_ranking_concat, !string_app_assoc. intros H.
      now apply header_differs in H.
    + intros H. apply Hnil in H. discriminate H.
    + intros _. exists (title_of quiz_id quiz_title).
      eexists. split; [|apply title_of_cases].
      rewrite add_ranking_concat, !string_app_assoc. reflexivity.
Qed.

(** No record of the sample data is of quiz Q9. *)
Lemma no_results_message_iff_witness :
  exists message : string,
    generate_leaderboard_message (Some (IdStr "Q9")) None sample_world
    = (sample_world, Ok message)
    /\ (message = no_results_message
        <-> forall r : Entry.t,
              In r sample_results ->
              exists x : pyid,
                Some (IdStr "Q9") = Some x /\ Entry.quiz_id r <> Some (py_str x))
    /\ (message <> no_results_message ->
        exists title rest : string,
          message = "ðŸ“Š *Leaderboard: " ++ title ++ "* ðŸ“Š" ++ nl ++ nl ++ rest
          /\ (forall t : string, @None string = Some t -> t <> "" -> title = t)
          /\ (@None string = None \/ @None string = Some "" ->
              (forall z : Z, Some (IdStr "Q9") = Some (IdInt z) -> z <> 0 ->
                 title = "Quiz " ++ str_int z)
              /\ (forall t : string, Some (IdStr "Q9") = Some (IdStr t) -> t <> "" ->
                    title = "Quiz " ++ t)
              /\ (Some (IdStr "Q9") = None \/ Some (IdStr "Q9") = Some (IdInt 0)
                  \/ Some (IdStr "Q9") = Some (IdStr "") ->
                  title = "All Quizzes"))).
Proof.
  apply (no_results_message_iff sample_world sample_world sample_results). reflexivity.
Defined.

(** ** Submissions and queries together *)

(** X11.  A record that was just submitted is found by a query for all quizzes
    and by a query for its quiz, named by the int or by the string that
    [str] maps to the same text, when the limit exceeds the number of records
    stored before. *)
Theorem record_then_query (s : submission) (w w1 : world) (old : list Entry.t)
    (quiz_id : option pyid) (limit : Z) :
  load_results w = (w1, Ok (Records old)) ->
  can_write w ->
  quiz_id = None \/ (exists x : pyid, quiz_id = Some x /\ py_str x = py_str (sub_quiz_id s)) ->
  Z.of_nat (length old) < limit ->
  exists (w' : world) (view : list Entry.t),
    record s w = (w', Ok tt)
    /\ get_leaderboard quiz_id limit w' = (w', Ok view)
    /\ In (stored_entry s (clock w)) view.
Proof.
  intros Hload Hcw Hq Hlimit.
  destruct (record_stored s w w1 old Hload Hcw) as (w' & Hrec & Hload' & _ & _).
  exists w'. eexists. split; [exact Hrec|].
  rewrite (get_leaderboard_loaded _ _ _ _ _ Hload'). split; [reflexivity|].
  set (new := stored_entry s (clock w)).
  assert (Hin : In new (matching quiz_id (old ++ [new]))).
  { destruct Hq as [-> | (x & -> & Hx)]; simpl.
    - apply in_or_app. right. now left.
    - apply filter_In. split; [apply in_or_app; right; now left|].
      unfold quiz_id_is, new. simpl. rewrite Hx. apply String.eqb_refl. }
  rewrite py_slice_to_all.
  - apply (Permutation_in _ (sorted_perm tuple_ltb sort_key _)), Hin.
  - rewrite sorted_length.
    assert (length (matching quiz_id (old ++ [new])) <= length (old ++ [new]))%nat.
    { destruct quiz_id; simpl; [apply List.filter_length_le | lia]. }
    rewrite length_app in H. simpl in H. lia.
Qed.

Lemma record_then_query_witness :
  exists (w' : world) (view : list Entry.t),
    record submission_F sample_world = (w', Ok tt)
    /\ get_leaderboard (Some (IdStr "2")) 15 w' = (w', Ok view)
    /\ In (stored_entry submission_F (clock sample_world)) view.
Proof.
  apply (record_then_query submission_F sample_world sample_world sample_results).
  - reflexivity.
  - split; [reflexivity|]. intros r c H. vm_compute in H. discriminate H.
  - right. exists (IdStr "2"). split; reflexivity.
  - vm_compute. reflexivity.
Defined.

(** X13.  A results file whose text is not JSON is overwritten by the next
    submission: afterwards it holds the new entry alone. *)
Theorem record_replaces_unparsable (s : submission) (w : world) :
  holds w true true Not_json ->
  io_fault w = false ->
  exists w' : world,
    record s w = (w', Ok tt)
    /\ holds w' true true (Json (Records [stored_entry s (clock w)])).
Proof.
  intros Hh Hio.
  pose proof Hh as (inside & Hd & Hf)%holds_inv.
  assert (Hload : load_results w = (w, Ok (Records []))) by now rewrite load_results_run, Hd, Hf.
  unfold record. rewrite record_quiz_result_run, Hload.
  rewrite (save_results_run _ _ inside Hd), Hf, Hio. simpl.
  eexists. split; [reflexivity|]. apply holds_inv. simpl. rewrite lookup_insert_eq.
  eexists. split; [reflexivity|]. apply lookup_insert_eq.
Qed.

Lemma record_replaces_unparsable_witness :
  exists w' : world,
    record submission_E (world_of true Not_json false) = (w', Ok tt)
    /\ holds w' true true
         (Json (Records [stored_entry submission_E (clock (world_of true Not_json false))])).
Proof.
  apply (record_replaces_unparsable submission_E (world_of true Not_json false));
    reflexivity.
Defined.

(** X12.  Submissions that the store refuses, each leaving the world as it was:
    [AttributeError] when the file holds a JSON value that is not an array,
    [PermissionError] when the file may not be written or may not be read,
    [UnicodeDecodeError] when its bytes are not UTF-8. *)
Theorem record_refused (s : submission) (w : world) :
  (forall (wr : bool) (doc : document),
     holds w true wr (Json doc) -> (forall l, doc <> Records l) ->
     record s w = (w, Raise AttributeError))
  /\ (forall old : list Entry.t,
        holds w true false (Json (Records old)) -> record s w = (w, Raise PermissionError))
  /\ (holds w true false Not_json -> record s w = (w, Raise PermissionError))
  /\ (forall (wr : bool) (c : content),
        holds w false wr c -> record s w = (w, Raise PermissionError))
  /\ (forall wr : bool,
        holds w true wr Not_utf8 -> record s w = (w, Raise UnicodeDecodeError)).
Proof.
  unfold record. rewrite record_quiz_result_run, load_results_run. repeat split.
  - intros wr doc (inside & -> & ->)%holds_inv Hdoc.
    destruct doc as [l | | |]; [now destruct (Hdoc l) | reflexivity..].
  - intros old (inside & Hd & Hf)%holds_inv. rewrite Hd, Hf.
    now rewrite (save_results_run _ _ inside Hd), Hf.
  - intros (inside & Hd & Hf)%holds_inv. rewrite Hd, Hf.
    now rewrite (save_results_run _ _ inside Hd), Hf.
  - intros wr c (inside & -> & ->)%holds_inv. reflexivity.
  - intros wr (inside & -> & ->)%holds_inv. reflexivity.
Qed.

Lemma record_refused_witness :
  record submission_E (world_of true (Json Empty_container) false)
  = (world_of true (Json Empty_container) false, Raise AttributeError).
Proof.
  apply (proj1 (record_refused submission_E (world_of true (Json Empty_container) false))
           true Empty_container); [reflexivity | discriminate].
Defined.

(** X14.  A query over a stored JSON value that is not an array: an empty
    object or string gives the empty view, a non-empty one raises
    [AttributeError], a number, boolean or null raises [TypeError]; the world
    is unchanged. *)
Theorem get_leaderboard_not_a_list (w : world) (wr : bool) (quiz_id : option pyid)
    (limit : Z) :
  (holds w true wr (Json Empty_container) -> get_leaderboard quiz_id limit w = (w, Ok []))
  /\ (holds w true wr (Json Nonempty_container) ->
      get_leaderboard quiz_id limit w = (w, Raise AttributeError))
  /\ (holds w true wr (Json Scalar) ->
      get_leaderboard quiz_id limit w = (w, Raise TypeError)).
Proof.
  unfold get_leaderboard, bind. rewrite load_results_run.
  repeat split; intros (inside & -> & ->)%holds_inv; destruct quiz_id; simpl;
    try reflexivity; unfold py_slice_to, ret; destruct (limit <? 0);
    now rewrite firstn_nil.
Qed.

Lemma get_leaderboard_not_a_list_witness :
  get_leaderboard None 15 (world_of true (Json Scalar) false)
  = (world_of true (Json Scalar) false, Raise TypeError).
Proof.
  apply (proj2 (proj2 (get_leaderboard_not_a_list (world_of true (Json Scalar) false)
                         true None 15))).
  reflexivity.
Defined.

(** ** Command handler *)

(** X15.  The command handler never changes what a load returns; it sends
    exactly one reply when it returns and none when it raises; and when the
    first argument is not an integer it sends the validation message without
    parse mode and leaves the world as it is, whatever the other arguments. *)
Theorem show_leaderboard_command_effects (command_args : list arg_text) (w : world)
    (sent : list reply) :
  exists (w' : world) (sent' : list reply) (outcome : res unit),
    show_leaderboard_command command_args w sent = (w', sent', outcome)
    /\ load_results w' = load_results w
    /\ (outcome = Ok tt /\ (exists r : reply, sent' = (sent ++ [r])%list)
        \/ (exists e : exn, outcome = Raise e) /\ sent' = sent)
    /\ (forall rest : list arg_text,
          command_args = Other_text :: rest ->
          w' = w
          /\ sent' = (sent ++ [mk_reply "Invalid quiz ID. Please provide a valid number." None])%list
          /\ outcome = Ok tt).
Proof.
  unfold show_leaderboard_command.
  assert (Hgen : forall quiz_id,
            exists w' sent' outcome,
              match generate_leaderboard_message quiz_id None w with
              | (w', Ok leaderboard_message) =>
                  (w', (sent ++ [mk_reply leaderboard_message (Some "Markdown")])%list, Ok tt)
              | (w', Raise e) => (w', sent, Raise e)
              end = (w', sent', outcome)
              /\ load_results w' = load_results w
              /\ (outcome = Ok tt /\ (exists r : reply, sent' = (sent ++ [r])%list)
                  \/ (exists e : exn, outcome = Raise e) /\ sent' = sent)).
  { intros quiz_id.
    pose proof (generate_leaderboard_message_world w quiz_id None) as Hw.
    destruct (generate_leaderboard_message quiz_id None w) as [w' [m | e]]; simpl in Hw;
      subst w'; do 3 eexists; (split; [reflexivity|]);
      (split; [apply load_results_again|]); [left | right]; eauto. }
  destruct command_args as [|[z|] rest]; simpl.
  - destruct (Hgen None) as (w' & sent' & outcome & E & Hl & Hs).
    exists w', sent', outcome. repeat split; auto. all: discriminate.
  - destruct (Hgen (Some (IdInt z))) as (w' & sent' & outcome & E & Hl & Hs).
    exists w', sent', outcome. repeat split; auto. all: discriminate.
  - do 3 eexists. split; [reflexivity|]. split; [reflexivity|]. split; [left; eauto|].
    intros rest' _. repeat split.
Qed.

(** X16.  With an integer [z] as first argument and a view that is not empty,
    the handler replies, in Markdown, the report of the records whose
    [quiz_id] is [str(z)]; its title is [Quiz z], except for [z = 0] where it
    is [All Quizzes] although the entries are those of quiz 0. *)
Theorem show_leaderboard_command_report (z : Z) (rest : list arg_text) (w w1 : world)
    (results : list Entry.t) (sent : list reply) (first : Entry.t) (others : list Entry.t) :
  load_results w = (w1, Ok (Records results)) ->
  get_leaderboard (Some (IdInt z)) default_limit w = (w1, Ok (first :: others)) ->
  show_leaderboard_command (Int_text z :: rest) w sent
  = (w1,
     (sent ++ [mk_reply
                 ((("ðŸ“Š *Leaderboard: "
                     ++ (if z =? 0 then "All Quizzes" else "Quiz " ++ str_int z)
                     ++ "* ðŸ“Š" ++ nl ++ nl)
                   ++ String.concat ""
                        (imap (fun k entry =>
                                 entry_text (dict_get (Entry.total_questions first) 0)
                                   (Z.of_nat k + 1) entry)
                           (first :: others)))
                  ++ "Use /play to start a new quiz!")
                 (Some "Markdown")])%list,
     Ok tt)
  /\ (forall r : Entry.t, In r (first :: others) -> Entry.quiz_id r = Some (str_int z)).
Proof.
  intros Hload Hview. split.
  - unfold show_leaderboard_command. simpl int_of_text. cbv iota beta.
    unfold generate_leaderboard_message, bind. rewrite Hview. cbv beta iota zeta.
    unfold ret. rewrite add_ranking_concat.
    unfold title_of. simpl truthy_str. cbv iota. unfold truthy_id.
    destruct (z =? 0); reflexivity.
  - rewrite (get_leaderboard_loaded _ _ _ _ _ Hload) in Hview.
    destruct (py_slice_to_take
                (sorted tuple_ltb sort_key (matching (Some (IdInt z)) results))
                default_limit) as [n Hn].
    rewrite Hn in Hview. injection Hview as Hview.
    intros r Hr. rewrite <- Hview in Hr.
    apply list_elem_of_In, elem_of_take in Hr as (i & Hr & _).
    apply list_elem_of_lookup_2, list_elem_of_In in Hr.
    apply (Permutation_in _ (Permutation_sym (sorted_perm tuple_ltb sort_key _))) in Hr.
    simpl in Hr. apply filter_In in Hr as [_ Hr]. unfold quiz_id_is in Hr.
    destruct (Entry.quiz_id r) as [q|]; [|discriminate].
    apply String.eqb_eq in Hr. now subst.
Qed.

Lemma show_leaderboard_command_report_witness :
  show_leaderboard_command [Int_text 0] zero_world []
  = (zero_world,
     ([] ++ [mk_reply
                 ((("ðŸ“Š *Leaderboard: "
                     ++ (if 0 =? 0 then "All Quizzes" else "Quiz " ++ str_int 0)
                     ++ "* ðŸ“Š" ++ nl ++ nl)
                   ++ String.concat ""
                        (imap (fun k entry =>
                                 entry_text
                                   (dict_get
                                      (Entry.total_questions (result_of "0" "G" (Int 3) 3 5 None))
                                      0)
                                   (Z.of_nat k + 1) entry)
                           (result_of "0" "G" (Int 3) 3 5 None :: [])))
                  ++ "Use /play to start a new quiz!")
                 (Some "Markdown")])%list,
     Ok tt)
  /\ (forall r : Entry.t,
        In r (result_of "0" "G" (Int 3) 3 5 None :: []) -> Entry.quiz_id r = Some (str_int 0)).
Proof.
  apply (show_leaderboard_command_report 0 [] zero_world zero_world
           [result_of "0" "G" (Int 3) 3 5 None; sample_A]); reflexivity.
Defined.
